(** * Auto-Remediation: the alarm handler of [src/lambda/lambda_function.py]

    A shallow embedding of [lambda_handler] and [send_discord].

    - Python values that can occur in a JSON event are the type [pyval].
    - A statement that may raise returns a [result]; the handler itself
      lives in a small trace-and-exception monad [M], whose trace lists
      the calls to the collaborators (EC2 tag lookup, SSM command
      dispatch, webhook POST) and to [send_discord], in program order.
    - The collaborators, the clock, the process environment and the
      library functions [datetime.fromisoformat], [json.dumps] and [str]
      on compound values are Variables of the Section [Handler]. *)

From Stdlib Require Import ZArith List String Ascii Bool Lia DecimalString.
From Stdlib Require Import Permutation.
Import ListNotations.
Local Open Scope string_scope.
Local Open Scope Z_scope.

Set Implicit Arguments.
Set Warnings "-register-all".

(** ** Python values *)

(** A Python [str] is held as its UTF-8 bytes. A [dict] keeps insertion
    order (which [json.dumps] serialises), so it is an association list;
    [float] is a dyadic [m * 2^e]. *)
Inductive pyval : Type :=
| PNone
| PBool (b : bool)
| PInt (n : Z)
| PFloat (m e : Z)
| PStr (s : string)
| PList (l : list pyval)
| PDict (d : list (string * pyval)).

Inductive exn : Type :=
| AttributeError
| KeyError
| IndexError
| TypeError
| ValueError
| Fault (name : string).   (* an exception raised by a collaborator *)

Inductive result (A : Type) : Type :=
| Ok (a : A)
| Raise (e : exn).
Arguments Raise {A} e.

Definition rbind {A B} (r : result A) (k : A -> result B) : result B :=
  match r with
  | Ok a => k a
  | Raise e => Raise e
  end.

Declare Scope result_scope.
Delimit Scope result_scope with result.
Notation "x <- r ;; k" := (rbind r (fun x => k))
  (at level 61, r at next level, right associativity) : result_scope.

(** ** Dictionaries, attribute access and subscripting *)

Fixpoint lookup (k : string) (d : list (string * pyval)) : option pyval :=
  match d with
  | [] => None
  | (k', v) :: d' => if String.eqb k k' then Some v else lookup k d'
  end.

(** [o.get(k, default)]: only a dict has a [get] method. *)
Definition py_get (o : pyval) (k : string) (default : pyval) : result pyval :=
  match o with
  | PDict d =>
      Ok (match lookup k d with
          | Some v => v
          | None => default
          end)
  | _ => Raise AttributeError
  end.

(** [o[0]]. A list or a string is indexed (a string by character; the
    model returns its first byte, and every caller here goes on to call
    [.get] on the result, which a [str] of any content lacks); a dict is
    looked up at the integer key [0], which no JSON object has; anything
    else is not subscriptable. *)
Definition py_index0 (o : pyval) : result pyval :=
  match o with
  | PList (x :: _) => Ok x
  | PList [] => Raise IndexError
  | PStr (String c _) => Ok (PStr (String c EmptyString))
  | PStr EmptyString => Raise IndexError
  | PDict _ => Raise KeyError
  | _ => Raise TypeError
  end.

(** ** Strings *)

(** [c.lower()] on one byte: [A-Z] go to [a-z]; every other byte,
    including each byte of a non-ASCII character, is kept. Python lowers
    non-ASCII letters too, but none of them lowers to one of the letters
    of ["true"], so the comparison of line 33 is not affected. *)
Definition lower_ascii (c : ascii) : ascii :=
  let n := nat_of_ascii c in
  if (Nat.leb 65 n && Nat.leb n 90)%bool then ascii_of_nat (n + 32) else c.

Fixpoint lower (s : string) : string :=
  match s with
  | EmptyString => EmptyString
  | String c s' => String (lower_ascii c) (lower s')
  end.

(** [s.replace('Z', '+00:00')]: every occurrence of the one character. *)
Fixpoint replace_Z (s : string) : string :=
  match s with
  | EmptyString => EmptyString
  | String c s' =>
      if Ascii.eqb c "Z"%char then "+00:00" ++ replace_Z s'
      else String c (replace_Z s')
  end.

(** [v.replace('Z', '+00:00')] as a method call on an arbitrary value. *)
Definition py_replace_Z (v : pyval) : result string :=
  match v with
  | PStr s => Ok (replace_Z s)
  | _ => Raise AttributeError
  end.

(** [str(n)] for an [int]. *)
Definition str_of_int (n : Z) : string :=
  NilZero.string_of_int (Z.to_int n).

(** ** Dates, durations and floats *)

(** A [datetime]: the microseconds on its own wall clock since
    0001-01-01T00:00:00, and its [tzinfo], [None] when naive and
    otherwise the fixed UTC offset, in microseconds, that
    [fromisoformat] builds from a [+hh:mm] suffix. *)
Record datetime : Type := { wall_us : Z; tzinfo : option Z }.

(** [a - b], a [timedelta], in microseconds. Aware operands are compared
    as instants; mixing a naive and an aware operand is a [TypeError]. *)
Definition datetime_sub (a b : datetime) : result Z :=
  match tzinfo a, tzinfo b with
  | None, None => Ok (wall_us a - wall_us b)
  | Some oa, Some ob => Ok ((wall_us a - oa) - (wall_us b - ob))
  | _, _ => Raise TypeError
  end.

(** [x * 2^k] for [k >= 0], and [x] otherwise. *)
Definition shl (x k : Z) : Z := x * 2 ^ Z.max k 0.

(** [floor (log2 (a / d))] for positive [a] and [d]. *)
Definition ilog2_ratio (a d : Z) : Z :=
  let k := Z.log2 a - Z.log2 d in
  if shl d k <=? shl a (- k) then k else k - 1.

(** The integer nearest to [num / den], ties to even. *)
Definition round_half_even (num den : Z) : Z :=
  let q := num / den in
  let r := num mod den in
  if ((den <? 2 * r) || ((den =? 2 * r) && Z.odd q))%bool then q + 1 else q.

(** [n / d] of two ints, [d > 0]: the binary64 nearest to the quotient,
    as the pair [(m, e)] of value [m * 2^e] with a 53-bit [m]. The
    exponent range is left out: a [timedelta] holds fewer than [2^67]
    microseconds, so no quotient by [10^6] overflows or is subnormal. *)
Definition true_divide (n d : Z) : Z * Z :=
  if n =? 0 then (0, 0)
  else
    let a := Z.abs n in
    let s := 52 - ilog2_ratio a d in
    (Z.sgn n * round_half_even (shl a s) (shl d (- s)), - s).

(** [delta.total_seconds()], for [delta] in microseconds. *)
Definition total_seconds (delta : Z) : Z * Z := true_divide delta 1000000.

(** [int(f)]: the float is truncated toward zero. *)
Definition int_of_float (f : Z * Z) : Z :=
  let (m, e) := f in
  if 0 <=? e then m * 2 ^ e else Z.quot m (2 ^ (- e)).

(** ** The trace-and-exception monad *)

(** One element of [ec2.describe_tags(...)['Tags']]. *)
Record TagDescription : Type :=
  { Key : string; ResourceId : string; ResourceType : string; Value : string }.

(** What an invocation does, in program order. [SendDiscord] marks an
    entry into [send_discord], a notification-send attempt; the other
    three are requests to a collaborator over the network. *)
Inductive call : Type :=
| DescribeTags (resource_id : pyval)
| SendCommand (instance_id : pyval) (document_name : pyval)
| SendDiscord (instance_id : pyval) (title description : string) (color : Z)
| HttpPost (url body : string).

Definition is_network_call (c : call) : bool :=
  match c with
  | SendDiscord _ _ _ _ => false
  | _ => true
  end.

Definition is_send_command (c : call) : bool :=
  match c with
  | SendCommand _ _ => true
  | _ => false
  end.

Definition is_send_discord (c : call) : bool :=
  match c with
  | SendDiscord _ _ _ _ => true
  | _ => false
  end.

Definition M (A : Type) : Type := list call * result A.

Definition ret {A} (a : A) : M A := ([], Ok a).

Definition bind {A B} (m : M A) (k : A -> M B) : M B :=
  match m with
  | (t, Ok a) => let (t', r) := k a in ((t ++ t')%list, r)
  | (t, Raise e) => (t, Raise e)
  end.

(** A statement that touches no collaborator. *)
Definition lift {A} (r : result A) : M A := ([], r).

(** A call [c] whose callee answers [r]. *)
Definition perform {A} (c : call) (r : result A) : M A := ([c], r).

Definition trace {A} (m : M A) : list call := fst m.
Definition outcome {A} (m : M A) : result A := snd m.

Declare Scope handler_scope.
Delimit Scope handler_scope with handler.
Notation "x <- m ;; k" := (bind m (fun x => k))
  (at level 61, m at next level, right associativity) : handler_scope.
Notation "m ;; k" := (bind m (fun _ => k))
  (at level 61, right associativity) : handler_scope.

(** ** The program *)

(** [any(t['Key'] == 'Maintenance' and t['Value'].lower() == 'true'
         for t in tags)], line 33. *)
Definition is_maintenance (tags : list TagDescription) : bool :=
  existsb (fun t => String.eqb (Key t) "Maintenance"
                    && String.eqb (lower (Value t)) "true")%bool tags.

(** What lines 18-28 bind. *)
Record alarm_context : Type :=
  { state_reason : pyval; downtime_duration : Z; instance_id : pyval }.

(** Line 19, [detail.get('state', {}).get('reason', 'N/A')]. *)
Definition get_state_reason (detail : pyval) : result pyval :=
  (state <- py_get detail "state" (PDict []) ;;
   py_get state "reason" (PStr "N/A"))%result.

(** Lines 27-28. *)
Definition get_instance_id (detail : pyval) : result pyval :=
  (configuration <- py_get detail "configuration" (PDict []) ;;
   metrics <- py_get configuration "metrics" (PList [PDict []]) ;;
   metric0 <- py_index0 metrics ;;
   metricStat <- py_get metric0 "metricStat" (PDict []) ;;
   metric <- py_get metricStat "metric" (PDict []) ;;
   dimensions <- py_get metric "dimensions" (PDict []) ;;
   py_get dimensions "InstanceId" (PStr "Unknown"))%result.

(** [bool(os.environ.get(name))]: unset and empty are both falsy. *)
Definition truthy (v : option string) : bool :=
  match v with
  | None | Some EmptyString => false
  | Some _ => true
  end.

Definition env_value (v : option string) : pyval :=
  match v with
  | Some s => PStr s
  | None => PNone
  end.

Definition status (s : string) : pyval := PDict [("status", PStr s)].

(** The titles of lines 36 and 53. *)
Definition maintenance_title : string := "⚠️ **Maintenance Mode Detected**".
Definition remediation_title : string := "🚨 **Auto-Remediation Triggered**".

Section Handler.

(** The process environment, read once at import (lines 8-9). *)
Variables DISCORD_WEBHOOK SSM_DOCUMENT : option string.

(** The collaborators: what each request answers, or the exception it
    raises. [describe_tags rid] is
    [ec2.describe_tags(Filters=[{'Name': 'resource-id',
    'Values': [rid]}])['Tags']]; [send_command iid doc] is
    [ssm.send_command(InstanceIds=[iid], DocumentName=doc)];
    [http_post url body] is the POST of line 73. *)
Variable describe_tags : pyval -> result (list TagDescription).
Variable send_command : pyval -> pyval -> result unit.
Variable http_post : string -> string -> result unit.

(** The clock: the instant of line 24 in UTC microseconds, the offset
    of the local zone, and [datetime.utcnow().isoformat()] of line 69. *)
Variable utc_clock : Z.
Variable local_offset : Z.
Variable utcnow_isoformat : string.

(** Library functions: [datetime.fromisoformat] ([None] for its
    [ValueError]), [json.dumps(...).encode('utf-8')], and [str] on a
    float, a list or a dict. *)
Variable fromisoformat : string -> option datetime.
Variable json_dumps : pyval -> string.
Variable str_compound : pyval -> string.

(** [datetime.now(tz)]. *)
Definition datetime_now (tz : option Z) : datetime :=
  match tz with
  | None => {| wall_us := utc_clock + local_offset; tzinfo := None |}
  | Some off => {| wall_us := utc_clock + off; tzinfo := Some off |}
  end.

(** [f"{v}"]. *)
Definition format_value (v : pyval) : string :=
  match v with
  | PStr s => s
  | PNone => "None"
  | PBool true => "True"
  | PBool false => "False"
  | PInt n => str_of_int n
  | _ => str_compound v
  end.

(** Line 23, after the [replace]. *)
Definition parse_time (s : string) : result datetime :=
  match fromisoformat s with
  | Some t => Ok t
  | None => Raise ValueError
  end.

(** Lines 22-24. *)
Definition get_downtime_duration (event : pyval) : result Z :=
  (event_time_str <- py_get event "time" PNone ;;
   iso <- py_replace_Z event_time_str ;;
   event_time <- parse_time iso ;;
   delta <- datetime_sub (datetime_now (tzinfo event_time)) event_time ;;
   Ok (int_of_float (total_seconds delta)))%result.

(** Lines 18-28, in the order of the source. *)
Definition extract_context (event : pyval) : result alarm_context :=
  (detail <- py_get event "detail" (PDict []) ;;
   state_reason <- get_state_reason detail ;;
   downtime_duration <- get_downtime_duration event ;;
   instance_id <- get_instance_id detail ;;
   Ok {| state_reason := state_reason;
         downtime_duration := downtime_duration;
         instance_id := instance_id |})%result.

Definition payload (instance_id : pyval) (title description : string)
    (color : Z) : pyval :=
  PDict
    [("username", PStr "Cloud Janitor");
     ("embeds",
      PList
        [PDict
           [("title", PStr title);
            ("description", PStr description);
            ("color", PInt color);
            ("fields",
             PList
               [PDict [("name", PStr "Instance ID");
                       ("value", PStr ("`" ++ format_value instance_id ++ "`"));
                       ("inline", PBool true)];
                PDict [("name", PStr "Region");
                       ("value", PStr "`ap-southeast-1`");
                       ("inline", PBool true)]]);
            ("timestamp", PStr utcnow_isoformat)]])].

(** Lines 57-73. *)
Definition send_discord (instance_id : pyval) (title description : string)
    (color : Z) : M unit :=
  (perform (SendDiscord instance_id title description color) (Ok tt) ;;
   match DISCORD_WEBHOOK with
   | None | Some EmptyString => ret tt
   | Some url =>
       let encoded_data :=
         json_dumps (payload instance_id title description color) in
       perform (HttpPost url encoded_data) (http_post url encoded_data)
   end)%handler.

Definition skip_description (state_reason : pyval) : string :=
  "**Reason:** " ++ format_value state_reason
  ++ String "010" "**Action:** Automation skipped to avoid interference.".

Definition success_description (state_reason : pyval)
    (downtime_duration : Z) : string :=
  "**Cause of Downtime:** `" ++ format_value state_reason ++ "`"
  ++ String "010" "**Time Since Detection:** `"
  ++ str_of_int downtime_duration ++ " seconds`"
  ++ String "010" "**Remediation:** Triggered `"
  ++ format_value (env_value SSM_DOCUMENT) ++ "` successfully.".

(** Lines 12-55. The two [boto3.client] constructions of lines 13-14
    send nothing and are taken to succeed; [context] is not read. *)
Definition lambda_handler (event context : pyval) : M pyval :=
  (ctx <- lift (extract_context event) ;;
   tags <- perform (DescribeTags (instance_id ctx))
                   (describe_tags (instance_id ctx)) ;;
   if is_maintenance tags then
     send_discord (instance_id ctx) maintenance_title
       (skip_description (state_reason ctx)) 16776960 ;;
     ret (status "skipped")
   else
     perform (SendCommand (instance_id ctx) (env_value SSM_DOCUMENT))
             (send_command (instance_id ctx) (env_value SSM_DOCUMENT)) ;;
     send_discord (instance_id ctx) remediation_title
       (success_description (state_reason ctx) (downtime_duration ctx))
       15158332 ;;
     ret (status "success"))%handler.

End Handler.

(** ** Vocabulary of the specification *)

(** A step of a nested field path such as
    [detail.configuration.metrics[0].metricStat]. *)
Inductive step : Type :=
| Field (k : string)
| First.

(** The field at [path] is missing from [v]: walking [path], some dict on
    the way lacks the next key. An empty list, or a value of another
    shape where a dict or a list is due, is not a missing field. *)
Fixpoint field_missing (path : list step) (v : pyval) : bool :=
  match path with
  | [] => false
  | Field k :: rest =>
      match v with
      | PDict d =>
          match lookup k d with
          | None => true
          | Some v' => field_missing rest v'
          end
      | _ => false
      end
  | First :: rest =>
      match v with
      | PList (x :: _) => field_missing rest x
      | _ => false
      end
  end.

(** The value at [path], when every step of it is there. *)
Fixpoint field_at (path : list step) (v : pyval) : option pyval :=
  match path with
  | [] => Some v
  | Field k :: rest =>
      match v with
      | PDict d =>
          match lookup k d with
          | None => None
          | Some v' => field_at rest v'
          end
      | _ => None
      end
  | First :: rest =>
      match v with
      | PList (x :: _) => field_at rest x
      | _ => None
      end
  end.

Definition reason_path : list step :=
  [Field "detail"; Field "state"; Field "reason"].

Definition metrics_path : list step :=
  [Field "detail"; Field "configuration"; Field "metrics"].

Definition instance_id_path : list step :=
  metrics_path
  ++ [First; Field "metricStat"; Field "metric"; Field "dimensions";
      Field "InstanceId"].

(** The reason and the instance id as lines 18-19 and 18, 27-28 read
    them off the event. *)
Definition event_state_reason (event : pyval) : result pyval :=
  (detail <- py_get event "detail" (PDict []) ;;
   get_state_reason detail)%result.

Definition event_instance_id (event : pyval) : result pyval :=
  (detail <- py_get event "detail" (PDict []) ;;
   get_instance_id detail)%result.

(** The event's timestamp: its [time] is a string that, after the
    [replace] of line 23, [fromisoformat] parses. *)
Definition event_time (fromisoformat : string -> option datetime)
    (event : pyval) : option datetime :=
  match field_at [Field "time"] event with
  | Some (PStr s) => fromisoformat (replace_Z s)
  | _ => None
  end.

(** A tag that switches remediation off. *)
Definition maintenance_tag (t : TagDescription) : Prop :=
  Key t = "Maintenance" /\ lower (Value t) = "true".

(** Whole seconds of a duration in microseconds, rounded down and
    rounded toward zero. *)
Definition floor_seconds (delta : Z) : Z := delta / 1000000.
Definition trunc_seconds (delta : Z) : Z := Z.quot delta 1000000.

(** The durations, in microseconds, on which [int(total_seconds())] is
    exact: those shorter than [2^34] seconds, some 544 years. *)
Definition exact_range : Z := 2 ^ 34 * 1000000.

(** [now - eventTime] in microseconds, for an event time [t] and the
    clock of line 24 at [utc_clock]; [local_offset] only matters when [t]
    is naive. *)
Definition elapsed (utc_clock local_offset : Z) (t : datetime) : Z :=
  match tzinfo t with
  | None => utc_clock + local_offset - wall_us t
  | Some off => utc_clock - (wall_us t - off)
  end.

(** [needle] occurs in [s]. *)
Definition occurs_in (needle s : string) : Prop :=
  exists before after, s = before ++ needle ++ after.

(** ** A test double of the collaborators *)

Module Fixture.

(** 2024-01-01T00:00:00, in microseconds since 0001-01-01T00:00:00. *)
Definition new_year_2024 : Z := 738885 * 86400 * 1000000.

Definition fromisoformat (s : string) : option datetime :=
  if String.eqb s "2024-01-01T00:00:00+00:00"
  then Some {| wall_us := new_year_2024; tzinfo := Some 0 |}
  else None.

Definition json_dumps (_ : pyval) : string := "{}".
Definition str_compound (_ : pyval) : string := "<compound>".

Definition tag (k v : string) : TagDescription :=
  {| Key := k; ResourceId := "i-abc123"; ResourceType := "instance";
     Value := v |}.

Definition metrics_event (time reason metrics : list (string * pyval)) : pyval :=
  PDict
    (time
     ++ [("detail",
          PDict [("state", PDict reason);
                 ("configuration", PDict metrics)])])%list.

Definition dimensions (fields : list (string * pyval)) : pyval :=
  PList
    [PDict
       [("metricStat",
         PDict [("metric", PDict [("dimensions", PDict fields)])])]].

(** The alarm of the specification's scenarios. *)
Definition alarm : pyval :=
  metrics_event
    [("time", PStr "2024-01-01T00:00:00Z")]
    [("reason", PStr "Instance reachability check failed")]
    [("metrics", dimensions [("InstanceId", PStr "i-abc123")])].

(** The same alarm without a reason and without an instance id. *)
Definition bare_alarm : pyval :=
  metrics_event [("time", PStr "2024-01-01T00:00:00Z")] [] [].

(** The same alarm without a [time]. *)
Definition untimed_alarm : pyval :=
  metrics_event []
    [("reason", PStr "Instance reachability check failed")]
    [("metrics", dimensions [("InstanceId", PStr "i-abc123")])].

(** The same alarm with an empty [metrics] list. *)
Definition unmetered_alarm : pyval :=
  metrics_event
    [("time", PStr "2024-01-01T00:00:00Z")]
    [("reason", PStr "Instance reachability check failed")]
    [("metrics", PList [])].

(** The handler run [ahead] microseconds after the alarm's time, with a
    reachable webhook, the resource tagged [tags], and SSM answering
    [ssm]. *)
Definition run (webhook : option string) (tags : list TagDescription)
    (ssm : result unit) (ahead : Z) (event : pyval) : M pyval :=
  lambda_handler webhook (Some "RestartService")
    (fun _ => Ok tags) (fun _ _ => ssm) (fun _ _ => Ok tt)
    (new_year_2024 + ahead) 0 "2024-01-01T00:01:30.500000"
    fromisoformat json_dumps str_compound event PNone.

Definition webhook : option string :=
  Some "https://discord.example/api/webhooks/1".

(** What lines 18-28 bind on [alarm], ninety and a half seconds on. *)
Definition alarm_ctx : alarm_context :=
  {| state_reason := PStr "Instance reachability check failed";
     downtime_duration := 90;
     instance_id := PStr "i-abc123" |}.

(** The alarm's own time, as [fromisoformat] reads it. *)
Definition alarm_time : datetime :=
  {| wall_us := new_year_2024; tzinfo := Some 0 |}.

(** An alarm stamped with the first microsecond of year 1. *)
Definition ancient_time : datetime := {| wall_us := 1; tzinfo := Some 0 |}.

(** The alarm with an object where the [metrics] list is due. *)
Definition keyed_metrics_alarm : pyval :=
  metrics_event
    [("time", PStr "2024-01-01T00:00:00Z")]
    [("reason", PStr "Instance reachability check failed")]
    [("metrics", PDict [("0", dimensions [])])].

(** An alarm whose [detail] is null. *)
Definition null_detail_alarm : pyval :=
  PDict [("time", PStr "2024-01-01T00:00:00Z"); ("detail", PNone)].

(** The alarm with a [time] that is no ISO timestamp. *)
Definition garbled_alarm : pyval :=
  metrics_event
    [("time", PStr "yesterday")]
    [("reason", PStr "Instance reachability check failed")]
    [("metrics", dimensions [("InstanceId", PStr "i-abc123")])].

(** The handler on [alarm], ninety and a half seconds on, with each
    collaborator answering as given. *)
Definition run_with (webhook document : option string)
    (lookup : result (list TagDescription)) (ssm post : result unit) : M pyval :=
  lambda_handler webhook document
    (fun _ => lookup) (fun _ _ => ssm) (fun _ _ => post)
    (new_year_2024 + 90500000) 0 "2024-01-01T00:01:30.500000"
    fromisoformat json_dumps str_compound alarm PNone.

(** What [alarm_ctx] makes of the success notification. *)
Definition alarm_success_description (document : option string) : string :=
  success_description document str_compound
    (PStr "Instance reachability check failed") 90.

End Fixture.

(** ** Floats: [int(total_seconds())] against exact truncation *)

(** Rounding moves a quotient by at most one half. *)
Lemma round_half_even_near (num den : Z) :
  0 < den ->
  2 * num - den <= 2 * den * round_half_even num den <= 2 * num + den.
Proof.
  intros Hden.
  pose proof (Z.div_mod num den ltac:(lia)) as E.
  pose proof (Z.mod_pos_bound num den Hden) as B.
  unfold round_half_even.
  set (q := num / den) in *. set (r := num mod den) in *.
  destruct (den <? 2 * r) eqn:C1; cbn [orb andb].
  - apply Z.ltb_lt in C1. nia.
  - apply Z.ltb_ge in C1.
    destruct (den =? 2 * r) eqn:C2; cbn [orb andb].
    + apply Z.eqb_eq in C2. destruct (Z.odd q); nia.
    + apply Z.eqb_neq in C2. nia.
Qed.

(** Below [2^34] seconds the binary exponent of the quotient leaves at
    least nineteen fractional bits. *)
Lemma ilog2_ratio_small (a : Z) :
  0 < a < exact_range -> ilog2_ratio a 1000000 <= 33.
Proof.
  unfold exact_range. intros [Hpos Hlt].
  assert (Hlog : Z.log2 a < 54).
  { apply Z.log2_lt_pow2; [assumption|].
    change (2 ^ 54) with 18014398509481984. lia. }
  unfold ilog2_ratio. change (Z.log2 1000000) with 19.
  destruct (Z.eq_dec (Z.log2 a) 53) as [E | NE].
  - rewrite E. change (53 - 19) with 34. unfold shl.
    change (2 ^ Z.max 34 0) with (2 ^ 34).
    change (Z.max (- (34)) 0) with 0. change (2 ^ 0) with 1.
    destruct (1000000 * 2 ^ 34 <=? a * 1) eqn:C; cbv iota.
    + apply Z.leb_le in C. lia.
    + lia.
  - destruct (_ <=? _); cbv iota; lia.
Qed.

(** A microsecond is more than [2^-20]: rounding to the nearest multiple
    of [2^-s], [s >= 19], cannot carry a quotient by [10^6] up to the
    next integer. *)
Lemma round_keeps_whole_seconds (a s : Z) :
  0 <= a -> 19 <= s ->
  round_half_even (a * 2 ^ s) 1000000 / 2 ^ s = a / 1000000.
Proof.
  intros Ha Hs.
  assert (HP : 2 ^ 19 <= 2 ^ s) by (apply Z.pow_le_mono_r; lia).
  change (2 ^ 19) with 524288 in HP.
  set (P := 2 ^ s) in *.
  pose proof (Z.div_mod a 1000000 ltac:(lia)) as Ea.
  pose proof (Z.mod_pos_bound a 1000000 ltac:(lia)) as Ba.
  set (qa := a / 1000000) in *. set (ra := a mod 1000000) in *.
  pose proof (@round_half_even_near (a * P) 1000000 ltac:(lia)) as Bm.
  set (m := round_half_even (a * P) 1000000) in *.
  assert (Ea' : a * P = 1000000 * (qa * P) + ra * P) by (rewrite Ea at 1; ring).
  assert (Hlow : qa * P <= m).
  { destruct (Z.eq_dec ra 0) as [R0 | R0]; nia. }
  assert (Hup : m < qa * P + P) by nia.
  symmetry. apply Z.div_unique with (r := m - qa * P).
  - left. lia.
  - lia.
Qed.

Lemma int_total_seconds (delta : Z) :
  Z.abs delta < exact_range ->
  int_of_float (total_seconds delta) = trunc_seconds delta.
Proof.
  intros Hb. unfold total_seconds, true_divide, trunc_seconds.
  destruct (delta =? 0) eqn:Z0.
  - apply Z.eqb_eq in Z0. subst delta. reflexivity.
  - apply Z.eqb_neq in Z0.
    pose proof (@ilog2_ratio_small (Z.abs delta) ltac:(lia)) as HL.
    set (s := 52 - ilog2_ratio (Z.abs delta) 1000000) in *.
    assert (Hs : 19 <= s) by lia.
    unfold int_of_float.
    replace (0 <=? - s) with false by (symmetry; apply Z.leb_gt; lia).
    rewrite Z.opp_involutive. unfold shl.
    rewrite (Z.max_l s 0) by lia. rewrite (Z.max_r (- s) 0) by lia.
    change (2 ^ 0) with 1. rewrite Z.mul_1_r.
    pose proof (@round_keeps_whole_seconds (Z.abs delta) s ltac:(lia) Hs) as Hr.
    pose proof (@round_half_even_near (Z.abs delta * 2 ^ s) 1000000 ltac:(lia))
      as Bm.
    assert (0 < 2 ^ s) by (apply Z.pow_pos_nonneg; lia).
    set (m := round_half_even (Z.abs delta * 2 ^ s) 1000000) in *.
    assert (0 <= m) by nia.
    destruct (Z.lt_total delta 0) as [Neg | [? | Pos]]; [| lia |].
    + rewrite (Z.sgn_neg delta Neg).
      replace (-1 * m) with (- m) by lia.
      rewrite Z.quot_opp_l by lia.
      rewrite Z.quot_div_nonneg by lia. rewrite Hr.
      replace delta with (- Z.abs delta) at 2 by lia.
      rewrite Z.quot_opp_l by lia.
      rewrite Z.quot_div_nonneg by lia. reflexivity.
    + rewrite (Z.sgn_pos delta Pos). rewrite Z.mul_1_l.
      rewrite Z.quot_div_nonneg by lia. rewrite Hr.
      rewrite (Z.abs_eq delta) by lia.
      rewrite Z.quot_div_nonneg by lia. reflexivity.
Qed.

Lemma trunc_seconds_nonneg (delta : Z) :
  0 <= delta -> trunc_seconds delta = floor_seconds delta.
Proof.
  intros H. unfold trunc_seconds, floor_seconds.
  apply Z.quot_div_nonneg; lia.
Qed.

Lemma trunc_seconds_nonpos (delta : Z) :
  delta <= 0 -> trunc_seconds delta = - floor_seconds (- delta).
Proof.
  intros H. unfold trunc_seconds, floor_seconds.
  replace delta with (- - delta) at 1 by lia.
  rewrite Z.quot_opp_l by lia. f_equal.
  apply Z.quot_div_nonneg; lia.
Qed.



(** ** The maintenance check *)

(** Decides [lower_ascii c = x <-> c = x \/ c = X] on the 256 bytes. *)
Ltac by_bytes c :=
  destruct c as [[] [] [] [] [] [] [] []]; vm_compute;
  split; intros H; try discriminate H; auto;
  destruct H as [H | H]; discriminate H.

Lemma lower_ascii_t (c : ascii) :
  lower_ascii c = "t"%char <-> c = "t"%char \/ c = "T"%char.
Proof. by_bytes c. Qed.

Lemma lower_ascii_r (c : ascii) :
  lower_ascii c = "r"%char <-> c = "r"%char \/ c = "R"%char.
Proof. by_bytes c. Qed.

Lemma lower_ascii_u (c : ascii) :
  lower_ascii c = "u"%char <-> c = "u"%char \/ c = "U"%char.
Proof. by_bytes c. Qed.

Lemma lower_ascii_e (c : ascii) :
  lower_ascii c = "e"%char <-> c = "e"%char \/ c = "E"%char.
Proof. by_bytes c. Qed.

(** The values that line 33 takes for ["true"]: its four letters, each
    in either case. *)
Lemma lower_true_cases (v : string) :
  lower v = "true" <->
  exists c1 c2 c3 c4,
    v = String c1 (String c2 (String c3 (String c4 EmptyString)))
    /\ (c1 = "t" \/ c1 = "T")%char /\ (c2 = "r" \/ c2 = "R")%char
    /\ (c3 = "u" \/ c3 = "U")%char /\ (c4 = "e" \/ c4 = "E")%char.
Proof.
  split.
  - destruct v as [|c1 [|c2 [|c3 [|c4 [|c5 v]]]]]; simpl; intros H;
      try discriminate H.
    injection H as H1 H2 H3 H4.
    exists c1, c2, c3, c4.
    rewrite <- lower_ascii_t, <- lower_ascii_r, <- lower_ascii_u,
      <- lower_ascii_e.
    auto.
  - intros (c1 & c2 & c3 & c4 & -> & H1 & H2 & H3 & H4). simpl.
    apply lower_ascii_t in H1. apply lower_ascii_r in H2.
    apply lower_ascii_u in H3. apply lower_ascii_e in H4.
    rewrite H1, H2, H3, H4. reflexivity.
Qed.

Lemma is_maintenance_spec (tags : list TagDescription) :
  is_maintenance tags = true <-> exists t, In t tags /\ maintenance_tag t.
Proof.
  unfold is_maintenance, maintenance_tag. rewrite existsb_exists.
  split; intros (t & Hin & H); exists t; split; try assumption.
  - apply andb_true_iff in H. destruct H as [Hk Hv].
    apply String.eqb_eq in Hk. apply String.eqb_eq in Hv. auto.
  - destruct H as [Hk Hv]. apply andb_true_iff.
    split; apply String.eqb_eq; assumption.
Qed.

Lemma is_maintenance_false (tags : list TagDescription) :
  is_maintenance tags = false <-> forall t, In t tags -> ~ maintenance_tag t.
Proof.
  split.
  - intros Hf t Hin Ht.
    assert (is_maintenance tags = true) as Ht'
      by (apply is_maintenance_spec; eauto).
    congruence.
  - intros Hn. destruct (is_maintenance tags) eqn:E; [|reflexivity].
    apply is_maintenance_spec in E. destruct E as (t & Hin & Ht).
    destruct (Hn t Hin Ht).
Qed.

(** C2. The maintenance check of line 33 answers true exactly when some
    tag of the list has the key ["Maintenance"] and a value whose
    lowercase form is ["true"]; on the empty list it answers false. *)
Theorem is_maintenance_iff_maintenance_tag :
  (forall tags : list TagDescription,
      is_maintenance tags = true <->
      exists t, In t tags /\ Key t = "Maintenance" /\ lower (Value t) = "true")
  /\ is_maintenance [] = false.
Proof.
  split.
  - intros tags. apply is_maintenance_spec.
  - reflexivity.
Qed.

(** ** Strings and paths *)

Lemma append_assoc (a b c : string) : (a ++ b) ++ c = a ++ (b ++ c).
Proof.
  induction a as [|x a IH]; simpl; [reflexivity|]. rewrite IH. reflexivity.
Qed.

(** A field missing at a path is missing at every extension of it. *)
Lemma field_missing_app (p q : list step) (v : pyval) :
  field_missing p v = true -> field_missing (p ++ q) v = true.
Proof.
  revert v. induction p as [|[k|] p IH]; simpl; intros v H.
  - discriminate H.
  - destruct v; try discriminate H.
    destruct (lookup k d); [apply IH, H | reflexivity].
  - destruct v as [| | | | |[|x l]|]; try discriminate H. apply IH, H.
Qed.

(** ** Extraction of the context *)

Lemma py_get_dict (d : list (string * pyval)) (k : string) (default : pyval) :
  py_get (PDict d) k default
  = Ok (match lookup k d with Some v => v | None => default end).
Proof. reflexivity. Qed.

(** A [.get] either answers or finds no such method. *)
Lemma py_get_raises (o : pyval) (k : string) (default : pyval) (e : exn) :
  py_get o k default = Raise e -> e = AttributeError.
Proof. destruct o; simpl; congruence. Qed.

Lemma get_state_reason_raises (detail : pyval) (e : exn) :
  get_state_reason detail = Raise e -> e = AttributeError.
Proof.
  unfold get_state_reason.
  destruct (py_get detail "state" (PDict [])) as [state|e'] eqn:E; simpl.
  - apply py_get_raises.
  - intros [= <-]. eapply py_get_raises, E.
Qed.

(** Under an absent key the chain of lines 27-28 runs on its defaults. *)
Lemma get_instance_id_missing (detail : pyval) :
  field_missing (tl instance_id_path) detail = true ->
  get_instance_id detail = Ok (PStr "Unknown").
Proof.
  unfold instance_id_path, metrics_path, get_instance_id. simpl.
  repeat
    match goal with
    | |- context [match ?v with PDict _ => _ | _ => _ end] =>
        is_var v; destruct v; try discriminate; simpl
    | |- context [match ?l with nil => _ | cons _ _ => _ end] =>
        is_var l; destruct l; try discriminate; simpl
    | |- context [lookup ?k ?d] =>
        destruct (lookup k d) eqn:?; simpl
    end; try discriminate; reflexivity.
Qed.

Lemma get_state_reason_missing (detail : pyval) :
  field_missing (tl reason_path) detail = true ->
  get_state_reason detail = Ok (PStr "N/A").
Proof.
  unfold reason_path, get_state_reason. simpl.
  repeat
    match goal with
    | |- context [match ?v with PDict _ => _ | _ => _ end] =>
        is_var v; destruct v; try discriminate; simpl
    | |- context [lookup ?k ?d] =>
        destruct (lookup k d) eqn:?; simpl
    end; try discriminate; reflexivity.
Qed.

(** A path that starts at [detail] is missing from the event when the
    event has no [detail], or when the rest is missing from [detail]. *)
Lemma field_missing_detail (rest : list step) (event : pyval) :
  field_missing (Field "detail" :: rest) event = true ->
  exists detail,
    py_get event "detail" (PDict []) = Ok detail
    /\ (detail = PDict [] \/ field_missing rest detail = true).
Proof.
  simpl. destruct event; try discriminate.
  rewrite py_get_dict. destruct (lookup "detail" d) as [detail|]; eauto.
Qed.

Lemma field_at_detail (rest : list step) (event v : pyval) :
  field_at (Field "detail" :: rest) event = Some v ->
  exists detail,
    py_get event "detail" (PDict []) = Ok detail
    /\ field_at rest detail = Some v.
Proof.
  simpl. destruct event; try discriminate.
  rewrite py_get_dict. destruct (lookup "detail" d) as [detail|]; eauto.
  discriminate.
Qed.

Lemma event_state_reason_missing (event : pyval) :
  field_missing reason_path event = true ->
  event_state_reason event = Ok (PStr "N/A").
Proof.
  intros H. apply field_missing_detail in H.
  destruct H as (detail & Hd & [-> | H]); unfold event_state_reason;
    rewrite Hd; simpl.
  - reflexivity.
  - apply get_state_reason_missing, H.
Qed.

Lemma event_instance_id_missing (event : pyval) :
  field_missing instance_id_path event = true ->
  event_instance_id event = Ok (PStr "Unknown").
Proof.
  intros H. apply field_missing_detail in H.
  destruct H as (detail & Hd & [-> | H]); unfold event_instance_id;
    rewrite Hd; simpl.
  - reflexivity.
  - apply get_instance_id_missing, H.
Qed.

Lemma get_instance_id_no_metrics (detail : pyval) :
  field_at (tl metrics_path) detail = Some (PList []) ->
  get_instance_id detail = Raise IndexError.
Proof.
  unfold metrics_path, get_instance_id. simpl.
  destruct detail as [| | | | | |fields]; try discriminate.
  rewrite py_get_dict.
  destruct (lookup "configuration" fields) as [[| | | | | |configuration]|];
    try discriminate; simpl.
  destruct (lookup "metrics" configuration) as [[]|]; try discriminate; simpl.
  intros [= ->]. reflexivity.
Qed.

(** ** The handler, path by path *)

Section HandlerFacts.

Variables DISCORD_WEBHOOK SSM_DOCUMENT : option string.
Variable describe_tags : pyval -> result (list TagDescription).
Variable send_command : pyval -> pyval -> result unit.
Variable http_post : string -> string -> result unit.
Variables utc_clock local_offset : Z.
Variable utcnow_isoformat : string.
Variable fromisoformat : string -> option datetime.
Variable json_dumps : pyval -> string.
Variable str_compound : pyval -> string.

Local Abbreviation handler :=
  (lambda_handler DISCORD_WEBHOOK SSM_DOCUMENT describe_tags send_command
     http_post utc_clock local_offset utcnow_isoformat fromisoformat
     json_dumps str_compound).
Local Abbreviation notify :=
  (send_discord DISCORD_WEBHOOK http_post utcnow_isoformat json_dumps
     str_compound).
Local Abbreviation extract := (extract_context utc_clock local_offset fromisoformat).
Local Abbreviation downtime :=
  (get_downtime_duration utc_clock local_offset fromisoformat).
Local Abbreviation skipped_message ctx :=
  (SendDiscord (instance_id ctx) maintenance_title
     (skip_description str_compound (state_reason ctx)) 16776960).
Local Abbreviation success_message ctx :=
  (SendDiscord (instance_id ctx) remediation_title
     (success_description SSM_DOCUMENT str_compound (state_reason ctx)
        (downtime_duration ctx)) 15158332).
Local Abbreviation document := (env_value SSM_DOCUMENT).

Lemma extract_context_inv (event : pyval) (ctx : alarm_context) :
  extract event = Ok ctx <->
  event_state_reason event = Ok (state_reason ctx)
  /\ downtime event = Ok (downtime_duration ctx)
  /\ event_instance_id event = Ok (instance_id ctx).
Proof.
  unfold extract_context, event_state_reason, event_instance_id.
  destruct (py_get event "detail" (PDict [])) as [detail|e]; simpl.
  2: { split; [discriminate | intros (H & _); discriminate H]. }
  destruct (get_state_reason detail) as [r|e]; simpl.
  2: { split; [discriminate | intros (H & _); discriminate H]. }
  destruct (downtime event) as [d|e]; simpl.
  2: { split; [discriminate | intros (_ & H & _); discriminate H]. }
  destruct (get_instance_id detail) as [i|e]; simpl.
  2: { split; [discriminate | intros (_ & _ & H); discriminate H]. }
  destruct ctx as [r' d' i']; simpl.
  split.
  - intros [= -> -> ->]. auto.
  - intros ([= ->] & [= ->] & [= ->]). reflexivity.
Qed.

(** The notification records its attempt first; whatever follows is the
    one POST, and nothing follows without a webhook. *)
Lemma send_discord_shape (iid : pyval) (title description : string) (color : Z) :
  exists posts,
    trace (notify iid title description color)
    = SendDiscord iid title description color :: posts
    /\ filter is_send_discord posts = []
    /\ filter is_send_command posts = []
    /\ (truthy DISCORD_WEBHOOK = false ->
        posts = [] /\ outcome (notify iid title description color) = Ok tt).
Proof.
  unfold send_discord.
  destruct DISCORD_WEBHOOK as [[|c url]|]; simpl.
  - exists []. auto.
  - eexists. split; [reflexivity|].
    destruct (http_post _ _); simpl; repeat split; discriminate.
  - exists []. auto.
Qed.

Lemma handler_extract_raises (event context : pyval) (e : exn) :
  extract event = Raise e -> handler event context = ([], Raise e).
Proof. intros H. unfold lambda_handler. rewrite H. reflexivity. Qed.

Lemma handler_tags_raise (event context : pyval) (ctx : alarm_context) (e : exn) :
  extract event = Ok ctx ->
  describe_tags (instance_id ctx) = Raise e ->
  handler event context = ([DescribeTags (instance_id ctx)], Raise e).
Proof.
  intros H1 H2. unfold lambda_handler. rewrite H1. simpl. rewrite H2.
  reflexivity.
Qed.

Lemma handler_skips (event context : pyval) (ctx : alarm_context)
    (tags : list TagDescription) :
  extract event = Ok ctx ->
  describe_tags (instance_id ctx) = Ok tags ->
  is_maintenance tags = true ->
  let n := notify (instance_id ctx) maintenance_title
             (skip_description str_compound (state_reason ctx)) 16776960 in
  handler event context
  = (DescribeTags (instance_id ctx) :: trace n,
     match outcome n with
     | Ok _ => Ok (status "skipped")
     | Raise e => Raise e
     end).
Proof.
  intros H1 H2 H3. unfold lambda_handler. rewrite H1. simpl. rewrite H2.
  simpl. rewrite H3. simpl.
  destruct (send_discord _ _ _ _ _ _ _ _ _) as [t [[]|e]]; simpl;
    rewrite ?app_nil_r; reflexivity.
Qed.

Lemma handler_command_raises (event context : pyval) (ctx : alarm_context)
    (tags : list TagDescription) (e : exn) :
  extract event = Ok ctx ->
  describe_tags (instance_id ctx) = Ok tags ->
  is_maintenance tags = false ->
  send_command (instance_id ctx) document = Raise e ->
  handler event context
  = ([DescribeTags (instance_id ctx); SendCommand (instance_id ctx) document],
     Raise e).
Proof.
  intros H1 H2 H3 H4. unfold lambda_handler. rewrite H1. simpl. rewrite H2.
  simpl. rewrite H3. simpl. rewrite H4. reflexivity.
Qed.

Lemma handler_remediates (event context : pyval) (ctx : alarm_context)
    (tags : list TagDescription) (u : unit) :
  extract event = Ok ctx ->
  describe_tags (instance_id ctx) = Ok tags ->
  is_maintenance tags = false ->
  send_command (instance_id ctx) document = Ok u ->
  let n := notify (instance_id ctx) remediation_title
             (success_description SSM_DOCUMENT str_compound (state_reason ctx)
                (downtime_duration ctx)) 15158332 in
  handler event context
  = (DescribeTags (instance_id ctx)
       :: SendCommand (instance_id ctx) document :: trace n,
     match outcome n with
     | Ok _ => Ok (status "success")
     | Raise e => Raise e
     end).
Proof.
  intros H1 H2 H3 H4. unfold lambda_handler. rewrite H1. simpl. rewrite H2.
  simpl. rewrite H3. simpl. rewrite H4. simpl.
  destruct (send_discord _ _ _ _ _ _ _ _ _) as [t [[]|e]]; simpl;
    rewrite ?app_nil_r; reflexivity.
Qed.

Lemma handler_reaches_command (event context : pyval) (ctx : alarm_context)
    (tags : list TagDescription) :
  extract event = Ok ctx ->
  describe_tags (instance_id ctx) = Ok tags ->
  is_maintenance tags = false ->
  exists rest,
    trace (handler event context)
    = DescribeTags (instance_id ctx)
        :: SendCommand (instance_id ctx) document :: rest.
Proof.
  intros H1 H2 H3.
  destruct (send_command (instance_id ctx) document) as [u|e] eqn:H4.
  - rewrite (handler_remediates event context H1 H2 H3 H4). simpl.
    eexists. reflexivity.
  - rewrite (handler_command_raises event context H1 H2 H3 H4). simpl.
    eexists. reflexivity.
Qed.

Lemma handler_reaches_tag_lookup (event context : pyval) (ctx : alarm_context) :
  extract event = Ok ctx ->
  exists rest,
    trace (handler event context) = DescribeTags (instance_id ctx) :: rest.
Proof.
  intros H1.
  destruct (describe_tags (instance_id ctx)) as [tags|e] eqn:H2.
  - destruct (is_maintenance tags) eqn:H3.
    + pose proof (handler_skips event context H1 H2 H3) as Hh.
      cbv zeta in Hh. rewrite Hh. simpl. eexists. reflexivity.
    + destruct (handler_reaches_command event context H1 H2 H3) as (rest & Hr).
      rewrite Hr. eexists. reflexivity.
  - rewrite (handler_tags_raise event context H1 H2). simpl.
    eexists. reflexivity.
Qed.

(** A run that returns took one of the two complete paths. *)
Lemma handler_returns_inv (event context st : pyval) :
  outcome (handler event context) = Ok st ->
  exists ctx tags,
    extract event = Ok ctx
    /\ describe_tags (instance_id ctx) = Ok tags
    /\ ((is_maintenance tags = true
         /\ st = status "skipped"
         /\ exists posts,
             trace (handler event context)
             = DescribeTags (instance_id ctx) :: skipped_message ctx :: posts
             /\ filter is_send_discord posts = []
             /\ filter is_send_command posts = [])
        \/ (is_maintenance tags = false
            /\ st = status "success"
            /\ exists posts,
                trace (handler event context)
                = DescribeTags (instance_id ctx)
                    :: SendCommand (instance_id ctx) document
                    :: success_message ctx :: posts
                /\ filter is_send_discord posts = []
                /\ filter is_send_command posts = [])).
Proof.
  intros Hret.
  destruct (extract event) as [ctx|e] eqn:H1.
  2: { rewrite (handler_extract_raises event context H1) in Hret. discriminate Hret. }
  destruct (describe_tags (instance_id ctx)) as [tags|e] eqn:H2.
  2: { rewrite (handler_tags_raise event context H1 H2) in Hret. discriminate Hret. }
  exists ctx, tags. split; [reflexivity|]. split; [exact H2|].
  destruct (is_maintenance tags) eqn:H3.
  - left. split; [reflexivity|].
    pose proof (handler_skips event context H1 H2 H3) as Hh. cbv zeta in Hh.
    rewrite Hh in *. simpl in Hret.
    destruct (send_discord_shape (instance_id ctx) maintenance_title
                (skip_description str_compound (state_reason ctx)) 16776960)
      as (posts & Ht & Hd & Hc & _).
    destruct (outcome (send_discord _ _ _ _ _ _ _ _ _)); [|discriminate Hret].
    injection Hret as <-. split; [reflexivity|].
    exists posts. simpl. rewrite Ht. auto.
  - right. split; [reflexivity|].
    destruct (send_command (instance_id ctx) document) as [u|e] eqn:H4.
    2: { rewrite (handler_command_raises event context H1 H2 H3 H4) in Hret.
         discriminate Hret. }
    pose proof (handler_remediates event context H1 H2 H3 H4) as Hh.
    cbv zeta in Hh. rewrite Hh in *. simpl in Hret.
    destruct (send_discord_shape (instance_id ctx) remediation_title
                (success_description SSM_DOCUMENT str_compound
                   (state_reason ctx) (downtime_duration ctx)) 15158332)
      as (posts & Ht & Hd & Hc & _).
    destruct (outcome (send_discord _ _ _ _ _ _ _ _ _)); [|discriminate Hret].
    injection Hret as <-. split; [reflexivity|].
    exists posts. simpl. rewrite Ht. auto.
Qed.

Lemma downtime_of_event_time (event : pyval) (t : datetime) :
  event_time fromisoformat event = Some t ->
  downtime event
  = Ok (int_of_float (total_seconds (elapsed utc_clock local_offset t))).
Proof.
  unfold event_time, get_downtime_duration. simpl.
  destruct event; try discriminate. rewrite py_get_dict.
  destruct (lookup "time" d) as [[]|]; try discriminate. simpl.
  intros Ht. unfold parse_time. rewrite Ht. simpl.
  unfold datetime_sub, datetime_now, elapsed.
  destruct (tzinfo t) as [off|]; simpl; do 3 f_equal; lia.
Qed.

(** ** The gate *)

(** C1. When the tags of the event's resource include one with key
    ["Maintenance"] and a value that lowercases to ["true"], the handler
    dispatches no remediation command and, its skip notification sent,
    returns [{"status": "skipped"}] (an exception of the notification is
    the only other way out). When the resource's ["Maintenance"] tag has
    the value ["false"], the maintenance check is false and the handler
    goes on to dispatch the command. *)
Theorem maintenance_tag_gates_remediation (event context : pyval)
    (ctx : alarm_context) (tags : list TagDescription) :
  extract event = Ok ctx ->
  describe_tags (instance_id ctx) = Ok tags ->
  ((exists t,
       In t tags /\ Key t = "Maintenance" /\ lower (Value t) = "true") ->
   filter is_send_command (trace (handler event context)) = []
   /\ (outcome (notify (instance_id ctx) maintenance_title
                  (skip_description str_compound (state_reason ctx)) 16776960)
       = Ok tt ->
       outcome (handler event context) = Ok (status "skipped"))
   /\ (forall e,
          outcome (notify (instance_id ctx) maintenance_title
                     (skip_description str_compound (state_reason ctx))
                     16776960)
          = Raise e ->
          outcome (handler event context) = Raise e))
  /\ ((forall t, In t tags -> Key t = "Maintenance" -> Value t = "false") ->
      is_maintenance tags = false
      /\ exists rest,
          trace (handler event context)
          = DescribeTags (instance_id ctx)
              :: SendCommand (instance_id ctx) document :: rest).
Proof.
  intros H1 H2. split.
  - intros Hm. apply is_maintenance_spec in Hm.
    pose proof (handler_skips event context H1 H2 Hm) as Hh.
    cbv zeta in Hh. rewrite Hh. simpl.
    destruct (send_discord_shape (instance_id ctx) maintenance_title
                (skip_description str_compound (state_reason ctx)) 16776960)
      as (posts & Ht & _ & Hc & _).
    repeat split.
    + rewrite Ht. simpl. exact Hc.
    + intros ->. reflexivity.
    + intros e ->. reflexivity.
  - intros Hf.
    assert (H3 : is_maintenance tags = false).
    { apply is_maintenance_false. intros t Hin [Hk Hv].
      rewrite (Hf t Hin Hk) in Hv. discriminate Hv. }
    split; [exact H3|].
    exact (handler_reaches_command event context H1 H2 H3).
Qed.

(** C3. A run of the handler that returns has made exactly one call to
    [send_discord]: the skip notification when it returns
    [{"status": "skipped"}], the success notification when it returns
    [{"status": "success"}]. *)
Theorem completed_run_notifies_once (event context st : pyval) :
  outcome (handler event context) = Ok st ->
  List.length (filter is_send_discord (trace (handler event context))) = 1%nat
  /\ exists ctx,
      extract event = Ok ctx
      /\ ((st = status "skipped"
           /\ filter is_send_discord (trace (handler event context))
              = [skipped_message ctx])
          \/ (st = status "success"
              /\ filter is_send_discord (trace (handler event context))
                 = [success_message ctx])).
Proof.
  intros Hret.
  destruct (handler_returns_inv event context Hret)
    as (ctx & tags & H1 & _ & [(_ & -> & posts & Ht & Hd & _)
                              | (_ & -> & posts & Ht & Hd & _)]);
    rewrite Ht; simpl; rewrite Hd; (split; [reflexivity|]);
    exists ctx; (split; [exact H1|]); auto.
Qed.

(** C7. On an event whose resource is not under maintenance, a failure of
    the command dispatch leaves the handler as that same exception, and
    the run has called [send_discord] not once: its calls are the tag
    lookup and the failed dispatch. *)
Theorem failed_dispatch_propagates_unnotified (event context : pyval)
    (ctx : alarm_context) (tags : list TagDescription) (e : exn) :
  extract event = Ok ctx ->
  describe_tags (instance_id ctx) = Ok tags ->
  (forall t, In t tags -> ~ maintenance_tag t) ->
  send_command (instance_id ctx) document = Raise e ->
  outcome (handler event context) = Raise e
  /\ trace (handler event context)
     = [DescribeTags (instance_id ctx);
        SendCommand (instance_id ctx) document]
  /\ filter is_send_discord (trace (handler event context)) = []
  /\ forall url body, ~ In (HttpPost url body) (trace (handler event context)).
Proof.
  intros H1 H2 Hn H4. apply is_maintenance_false in Hn.
  rewrite (handler_command_raises event context H1 H2 Hn H4). simpl.
  repeat split.
  intros url body [H | [H | []]]; discriminate H.
Qed.

(** ** The notification *)

(** C6. With no webhook URL in the environment (the variable unset, or
    set to the empty string), [send_discord] makes no network call and
    returns without raising, whatever its arguments. *)
Theorem send_discord_without_webhook (iid : pyval) (title description : string)
    (color : Z) :
  DISCORD_WEBHOOK = None \/ DISCORD_WEBHOOK = Some "" ->
  filter is_network_call (trace (notify iid title description color)) = []
  /\ outcome (notify iid title description color) = Ok tt.
Proof.
  intros [-> | ->]; split; reflexivity.
Qed.

(** ** The context *)

(** C4, as amended. For an event whose timestamp parses and lies within
    [2^34] seconds of the clock, [downtime_duration] is [now - eventTime]
    in seconds rounded toward zero: the floor when the difference is not
    negative, and minus the floor of [eventTime - now] when it is. The
    success notification's description carries that number verbatim. *)
Theorem downtime_truncates_elapsed_seconds (event : pyval) (t : datetime) :
  event_time fromisoformat event = Some t ->
  Z.abs (elapsed utc_clock local_offset t) < exact_range ->
  let d := trunc_seconds (elapsed utc_clock local_offset t) in
  downtime event = Ok d
  /\ (0 <= elapsed utc_clock local_offset t ->
      d = floor_seconds (elapsed utc_clock local_offset t))
  /\ (elapsed utc_clock local_offset t <= 0 ->
      d = - floor_seconds (- elapsed utc_clock local_offset t))
  /\ (forall ctx,
         extract event = Ok ctx ->
         downtime_duration ctx = d
         /\ occurs_in ("`" ++ str_of_int d ++ " seconds`")
              (success_description SSM_DOCUMENT str_compound
                 (state_reason ctx) (downtime_duration ctx)))
  /\ (forall context,
         outcome (handler event context) = Ok (status "success") ->
         exists ctx,
           extract event = Ok ctx
           /\ downtime_duration ctx = d
           /\ In (success_message ctx) (trace (handler event context))).
Proof.
  intros Ht Hb d.
  assert (Hd : downtime event = Ok d).
  { rewrite (downtime_of_event_time event Ht). f_equal.
    apply int_total_seconds, Hb. }
  assert (Hctx : forall ctx, extract event = Ok ctx -> downtime_duration ctx = d).
  { intros ctx Hc. apply extract_context_inv in Hc.
    destruct Hc as (_ & Hc & _). congruence. }
  repeat split.
  - exact Hd.
  - apply trunc_seconds_nonneg.
  - apply trunc_seconds_nonpos.
  - apply Hctx, H.
  - rewrite (Hctx ctx H). unfold success_description.
    set (reason := format_value str_compound (state_reason ctx)).
    exists ("**Cause of Downtime:** `" ++ reason ++ "`"
            ++ String "010" "**Time Since Detection:** ").
    eexists.
    rewrite !append_assoc. simpl. reflexivity.
  - intros context Hret.
    destruct (handler_returns_inv event context Hret)
      as (ctx & tags & H1 & _ & [(_ & Hs & _) | (_ & _ & posts & Hp & _)]).
    + discriminate Hs.
    + exists ctx. split; [exact H1|]. split; [apply Hctx, H1|].
      rewrite Hp. simpl. auto.
Qed.

(** C5. An event from which the reason field [detail.state.reason] is
    missing yields the reason ["N/A"], and one from which the instance-id
    field [detail.configuration.metrics[0].metricStat.metric.dimensions.InstanceId]
    is missing yields the instance id ["Unknown"]; the extracted context
    holds these values. *)
Theorem missing_fields_take_defaults (event : pyval) :
  (field_missing reason_path event = true ->
   event_state_reason event = Ok (PStr "N/A")
   /\ forall ctx, extract event = Ok ctx -> state_reason ctx = PStr "N/A")
  /\ (field_missing instance_id_path event = true ->
      event_instance_id event = Ok (PStr "Unknown")
      /\ forall ctx, extract event = Ok ctx -> instance_id ctx = PStr "Unknown").
Proof.
  split; intros H.
  - pose proof (event_state_reason_missing event H) as Hr.
    split; [exact Hr|]. intros ctx Hc.
    apply extract_context_inv in Hc. destruct Hc as (Hc & _). congruence.
  - pose proof (event_instance_id_missing event H) as Hi.
    split; [exact Hi|]. intros ctx Hc.
    apply extract_context_inv in Hc. destruct Hc as (_ & _ & Hc). congruence.
Qed.

(** C8. An event without a top-level [time], or with a null one, makes
    the handler raise while it extracts the context, before any call to a
    collaborator: lines 22-23 put no default in its place and raise
    [AttributeError]. *)
Theorem missing_time_raises_before_any_call (event context : pyval) :
  field_missing [Field "time"] event = true
  \/ field_at [Field "time"] event = Some PNone ->
  downtime event = Raise AttributeError
  /\ outcome (handler event context) = Raise AttributeError
  /\ trace (handler event context) = [].
Proof.
  intros H.
  assert (Hd : downtime event = Raise AttributeError).
  { unfold get_downtime_duration.
    destruct H as [H | H]; simpl in H; destruct event; try discriminate H;
      rewrite py_get_dict; destruct (lookup "time" d) as [v|];
      try discriminate H; [|injection H as ->]; reflexivity. }
  split; [exact Hd|].
  assert (He : extract event = Raise AttributeError).
  { unfold extract_context.
    destruct (py_get event "detail" (PDict [])) as [detail|e] eqn:E1; simpl.
    - destruct (get_state_reason detail) as [r|e] eqn:E2; simpl.
      + rewrite Hd. reflexivity.
      + f_equal. eapply get_state_reason_raises, E2.
    - f_equal. eapply py_get_raises, E1. }
  rewrite (handler_extract_raises event context He). split; reflexivity.
Qed.

(** C9. An event whose [detail.configuration.metrics] is there but is the
    empty list gets no default instance id: indexing its first metric
    raises [IndexError], which is how the handler ends once lines 18-24
    have gone through, and no collaborator is called. The default
    ["Unknown"] stands in when the [metrics] key itself is absent. *)
Theorem empty_metrics_raise_index_error (event context : pyval) :
  field_at metrics_path event = Some (PList []) ->
  event_instance_id event = Raise IndexError
  /\ (forall r d,
         event_state_reason event = Ok r ->
         downtime event = Ok d ->
         outcome (handler event context) = Raise IndexError)
  /\ (exists e, outcome (handler event context) = Raise e)
  /\ trace (handler event context) = []
  /\ (forall event',
         field_missing metrics_path event' = true ->
         event_instance_id event' = Ok (PStr "Unknown")).
Proof.
  intros H. apply field_at_detail in H. destruct H as (detail & Hd & Hm).
  apply get_instance_id_no_metrics in Hm.
  assert (Hi : event_instance_id event = Raise IndexError).
  { unfold event_instance_id. rewrite Hd. exact Hm. }
  assert (He : exists e, extract event = Raise e
                  /\ (forall r d, event_state_reason event = Ok r ->
                                  downtime event = Ok d -> e = IndexError)).
  { unfold extract_context, event_state_reason. rewrite Hd. simpl.
    destruct (get_state_reason detail) as [r|e]; simpl.
    - destruct (downtime event) as [d|e]; simpl.
      + rewrite Hm. simpl. eauto.
      + exists e. split; [reflexivity|]. intros r' d' _ H. discriminate H.
    - exists e. split; [reflexivity|]. intros r' d' H. discriminate H. }
  destruct He as (e & He & Hidx).
  rewrite (handler_extract_raises event context He). simpl.
  repeat split.
  - exact Hi.
  - intros r d Hr Hdt. f_equal. eapply Hidx; eassumption.
  - eauto.
  - intros event' Hmiss. apply event_instance_id_missing.
    unfold instance_id_path. apply field_missing_app, Hmiss.
Qed.

(** C10. A missing instance id does not stop the handler: with lines
    18-24 through, the tag lookup is made for the literal ["Unknown"],
    and when the maintenance check on its answer is false the remediation
    command is dispatched to the instance id ["Unknown"]. *)
Theorem missing_instance_id_targets_Unknown (event context r : pyval) (d : Z) :
  field_missing instance_id_path event = true ->
  event_state_reason event = Ok r ->
  downtime event = Ok d ->
  extract event
  = Ok {| state_reason := r; downtime_duration := d;
          instance_id := PStr "Unknown" |}
  /\ (exists rest,
         trace (handler event context)
         = DescribeTags (PStr "Unknown") :: rest)
  /\ (forall tags,
         describe_tags (PStr "Unknown") = Ok tags ->
         is_maintenance tags = false ->
         exists rest,
           trace (handler event context)
           = DescribeTags (PStr "Unknown")
               :: SendCommand (PStr "Unknown") document :: rest).
Proof.
  intros Hm Hr Hd.
  pose proof (event_instance_id_missing event Hm) as Hi.
  assert (He : extract event
               = Ok {| state_reason := r; downtime_duration := d;
                       instance_id := PStr "Unknown" |}).
  { apply extract_context_inv. simpl. auto. }
  split; [exact He|]. split.
  - exact (handler_reaches_tag_lookup event context He).
  - intros tags Ht Hn.
    exact (handler_reaches_command event context He Ht Hn).
Qed.

End HandlerFacts.

(** ** The scenarios of the specification, run on the test double *)

Import Fixture.

Example scenario_success :
  run webhook [] (Ok tt) 90500000 alarm
  = ([DescribeTags (PStr "i-abc123");
      SendCommand (PStr "i-abc123") (PStr "RestartService");
      SendDiscord (PStr "i-abc123") remediation_title
        ("**Cause of Downtime:** `Instance reachability check failed`"
         ++ String "010" "**Time Since Detection:** `90 seconds`"
         ++ String "010" "**Remediation:** Triggered `RestartService` successfully.")
        15158332;
      HttpPost "https://discord.example/api/webhooks/1" "{}"],
     Ok (status "success")).
Proof. vm_compute. reflexivity. Qed.

Example scenario_maintenance :
  run webhook [tag "Maintenance" "True"] (Ok tt) 90500000 alarm
  = ([DescribeTags (PStr "i-abc123");
      SendDiscord (PStr "i-abc123") maintenance_title
        ("**Reason:** Instance reachability check failed"
         ++ String "010" "**Action:** Automation skipped to avoid interference.")
        16776960;
      HttpPost "https://discord.example/api/webhooks/1" "{}"],
     Ok (status "skipped")).
Proof. vm_compute. reflexivity. Qed.

(** Half a second before the alarm's own time the handler reports [0]
    seconds, where the floor of [-0.5] is [-1]. *)
Example downtime_half_second_early :
  get_downtime_duration (new_year_2024 - 500000) 0 fromisoformat alarm = Ok 0
  /\ elapsed (new_year_2024 - 500000) 0 alarm_time = -500000
  /\ floor_seconds (-500000) = -1
  /\ trunc_seconds (-500000) = 0.
Proof. repeat split. Qed.

(** Beyond [2^34] seconds the binary64 quotient of [total_seconds] can
    round up to the next whole second before [int] truncates it. *)
Example downtime_of_ancient_alarm :
  let delta := elapsed new_year_2024 0 ancient_time in
  delta = 63839663999999999
  /\ int_of_float (total_seconds delta) = 63839664000
  /\ trunc_seconds delta = 63839663999.
Proof. repeat split. Qed.

Example downtime_just_out_of_range :
  let delta := exact_range + 1999999 in
  int_of_float (total_seconds delta) = 2 ^ 34 + 2
  /\ trunc_seconds delta = 2 ^ 34 + 1.
Proof. repeat split. Qed.

(** C4, as stated, fails: [downtime_duration] is not the floor of
    [now - eventTime] when the clock is half a second behind the event. *)
Lemma downtime_is_not_floor_of_elapsed :
  ~ (forall (utc_clock local_offset : Z)
            (fromisoformat : string -> option datetime)
            (event : pyval) (t : datetime),
        event_time fromisoformat event = Some t ->
        get_downtime_duration utc_clock local_offset fromisoformat event
        = Ok (floor_seconds (elapsed utc_clock local_offset t))).
Proof.
  intros H.
  specialize (H (new_year_2024 - 500000) 0 fromisoformat alarm alarm_time
                eq_refl).
  vm_compute in H. discriminate H.
Qed.

(** ** The theorems at the scenarios *)

Lemma maintenance_tag_gates_remediation_witness :
  (extract_context (new_year_2024 + 90500000) 0 fromisoformat alarm
   = Ok alarm_ctx
   /\ filter is_send_command
        (trace (run webhook [tag "Maintenance" "True"] (Ok tt) 90500000 alarm))
      = []
   /\ outcome (run webhook [tag "Maintenance" "True"] (Ok tt) 90500000 alarm)
      = Ok (status "skipped"))
  /\ (is_maintenance [tag "Maintenance" "false"] = false
      /\ exists rest,
          trace (run webhook [tag "Maintenance" "false"] (Ok tt) 90500000 alarm)
          = DescribeTags (PStr "i-abc123")
              :: SendCommand (PStr "i-abc123") (PStr "RestartService") :: rest).
Proof.
  split.
  - split; [reflexivity|].
    destruct (@maintenance_tag_gates_remediation
                webhook (Some "RestartService")
                (fun _ => Ok [tag "Maintenance" "True"]) (fun _ _ => Ok tt)
                (fun _ _ => Ok tt) (new_year_2024 + 90500000) 0
                "2024-01-01T00:01:30.500000" fromisoformat json_dumps
                str_compound alarm PNone alarm_ctx
                [tag "Maintenance" "True"] eq_refl eq_refl) as [Hskip _].
    destruct Hskip as (Hnone & Hret & _).
    + exists (tag "Maintenance" "True"). simpl. auto.
    + split; [exact Hnone | apply Hret; reflexivity].
  - destruct (@maintenance_tag_gates_remediation
                webhook (Some "RestartService")
                (fun _ => Ok [tag "Maintenance" "false"]) (fun _ _ => Ok tt)
                (fun _ _ => Ok tt) (new_year_2024 + 90500000) 0
                "2024-01-01T00:01:30.500000" fromisoformat json_dumps
                str_compound alarm PNone alarm_ctx
                [tag "Maintenance" "false"] eq_refl eq_refl) as [_ Hgo].
    apply Hgo. intros t [<- | []] _. reflexivity.
Defined.

Lemma completed_run_notifies_once_witness :
  outcome (run webhook [] (Ok tt) 90500000 alarm) = Ok (status "success")
  /\ List.length
       (filter is_send_discord (trace (run webhook [] (Ok tt) 90500000 alarm)))
     = 1%nat.
Proof.
  split; [reflexivity|].
  apply (@completed_run_notifies_once
           webhook (Some "RestartService") (fun _ => Ok []) (fun _ _ => Ok tt)
           (fun _ _ => Ok tt) (new_year_2024 + 90500000) 0
           "2024-01-01T00:01:30.500000" fromisoformat json_dumps str_compound
           alarm PNone (status "success") eq_refl).
Defined.

Lemma downtime_truncates_elapsed_seconds_witness :
  event_time fromisoformat alarm = Some alarm_time
  /\ Z.abs (elapsed (new_year_2024 - 1500000) 0 alarm_time) < exact_range
  /\ get_downtime_duration (new_year_2024 - 1500000) 0 fromisoformat alarm
     = Ok (-1).
Proof.
  split; [reflexivity|]. split; [reflexivity|].
  apply (@downtime_truncates_elapsed_seconds
           webhook (Some "RestartService") (fun _ => Ok []) (fun _ _ => Ok tt)
           (fun _ _ => Ok tt) (new_year_2024 - 1500000) 0
           "2024-01-01T00:01:30.500000" fromisoformat json_dumps str_compound
           alarm alarm_time eq_refl eq_refl).
Defined.

Lemma missing_fields_take_defaults_witness :
  (field_missing reason_path bare_alarm = true
   /\ event_state_reason bare_alarm = Ok (PStr "N/A"))
  /\ (field_missing instance_id_path bare_alarm = true
      /\ event_instance_id bare_alarm = Ok (PStr "Unknown")).
Proof.
  destruct (missing_fields_take_defaults new_year_2024 0 fromisoformat
              bare_alarm) as [Hreason Hid].
  split; (split; [reflexivity|]).
  - apply Hreason. reflexivity.
  - apply Hid. reflexivity.
Defined.

Lemma send_discord_without_webhook_witness :
  (None : option string) = None
  /\ filter is_network_call
       (trace (send_discord None (fun _ _ => Raise (Fault "unreachable"))
                 "2024-01-01T00:01:30.500000" json_dumps str_compound
                 (PStr "i-abc123") remediation_title "description" 15158332))
     = [].
Proof.
  split; [reflexivity|].
  apply (@send_discord_without_webhook
           None (fun _ _ => Raise (Fault "unreachable"))
           "2024-01-01T00:01:30.500000" json_dumps str_compound
           (PStr "i-abc123") remediation_title "description" 15158332
           (or_introl eq_refl)).
Defined.

Lemma failed_dispatch_propagates_unnotified_witness :
  is_maintenance [tag "Maintenance" "false"] = false
  /\ outcome (run webhook [tag "Maintenance" "false"]
                (Raise (Fault "InvalidInstanceId")) 90500000 alarm)
     = Raise (Fault "InvalidInstanceId")
  /\ filter is_send_discord
       (trace (run webhook [tag "Maintenance" "false"]
                 (Raise (Fault "InvalidInstanceId")) 90500000 alarm))
     = [].
Proof.
  split; [reflexivity|].
  destruct (@failed_dispatch_propagates_unnotified
              webhook (Some "RestartService")
              (fun _ => Ok [tag "Maintenance" "false"])
              (fun _ _ => Raise (Fault "InvalidInstanceId"))
              (fun _ _ => Ok tt) (new_year_2024 + 90500000) 0
              "2024-01-01T00:01:30.500000" fromisoformat json_dumps
              str_compound alarm PNone alarm_ctx
              [tag "Maintenance" "false"] (Fault "InvalidInstanceId")
              eq_refl eq_refl) as (Hout & _ & Hnone & _).
  - intros t [<- | []] [_ Hv]. discriminate Hv.
  - reflexivity.
  - split; [exact Hout | exact Hnone].
Defined.

Lemma missing_time_raises_before_any_call_witness :
  field_missing [Field "time"] untimed_alarm = true
  /\ outcome (run webhook [] (Ok tt) 90500000 untimed_alarm)
     = Raise AttributeError
  /\ trace (run webhook [] (Ok tt) 90500000 untimed_alarm) = [].
Proof.
  split; [reflexivity|].
  apply (@missing_time_raises_before_any_call
           webhook (Some "RestartService") (fun _ => Ok []) (fun _ _ => Ok tt)
           (fun _ _ => Ok tt) (new_year_2024 + 90500000) 0
           "2024-01-01T00:01:30.500000" fromisoformat json_dumps str_compound
           untimed_alarm PNone (or_introl eq_refl)).
Defined.

Lemma empty_metrics_raise_index_error_witness :
  field_at metrics_path unmetered_alarm = Some (PList [])
  /\ event_instance_id unmetered_alarm = Raise IndexError
  /\ outcome (run webhook [] (Ok tt) 90500000 unmetered_alarm)
     = Raise IndexError.
Proof.
  split; [reflexivity|].
  destruct (@empty_metrics_raise_index_error
              webhook (Some "RestartService") (fun _ => Ok [])
              (fun _ _ => Ok tt) (fun _ _ => Ok tt)
              (new_year_2024 + 90500000) 0 "2024-01-01T00:01:30.500000"
              fromisoformat json_dumps str_compound unmetered_alarm PNone
              eq_refl) as (Hid & Hidx & _).
  split; [exact Hid|].
  apply (Hidx (PStr "Instance reachability check failed") 90); reflexivity.
Defined.

Lemma missing_instance_id_targets_Unknown_witness :
  field_missing instance_id_path bare_alarm = true
  /\ exists rest,
      trace (run webhook [tag "Maintenance" "false"] (Ok tt) 90500000 bare_alarm)
      = DescribeTags (PStr "Unknown")
          :: SendCommand (PStr "Unknown") (PStr "RestartService") :: rest.
Proof.
  split; [reflexivity|].
  destruct (@missing_instance_id_targets_Unknown
              webhook (Some "RestartService")
              (fun _ => Ok [tag "Maintenance" "false"]) (fun _ _ => Ok tt)
              (fun _ _ => Ok tt) (new_year_2024 + 90500000) 0
              "2024-01-01T00:01:30.500000" fromisoformat json_dumps
              str_compound bare_alarm PNone (PStr "N/A") 90
              eq_refl eq_refl eq_refl) as (_ & _ & Hgo).
  apply (Hgo [tag "Maintenance" "false"]); reflexivity.
Defined.

(** * Further properties of the handler *)

(** ** The maintenance check, continued *)

(** X1. The only tag values that switch remediation off are the sixteen
    spellings of ["true"] in upper and lower case, under the key
    ["Maintenance"] spelled exactly so: no other key case, no padding,
    no ["yes"] or ["1"]. *)
Theorem maintenance_accepts_only_spellings_of_true :
  forall tags : list TagDescription,
    is_maintenance tags = true <->
    exists t c1 c2 c3 c4,
      In t tags /\ Key t = "Maintenance"
      /\ Value t = String c1 (String c2 (String c3 (String c4 EmptyString)))
      /\ (c1 = "t" \/ c1 = "T")%char /\ (c2 = "r" \/ c2 = "R")%char
      /\ (c3 = "u" \/ c3 = "U")%char /\ (c4 = "e" \/ c4 = "E")%char.
Proof.
  intros tags. rewrite is_maintenance_spec. unfold maintenance_tag. split.
  - intros (t & Hin & Hk & Hv). apply lower_true_cases in Hv.
    destruct Hv as (c1 & c2 & c3 & c4 & Hv & Hc).
    exists t, c1, c2, c3, c4. auto.
  - intros (t & c1 & c2 & c3 & c4 & Hin & Hk & Hv & Hc).
    exists t. repeat split; try assumption.
    apply lower_true_cases. exists c1, c2, c3, c4. auto.
Qed.

Lemma is_maintenance_app (a b : list TagDescription) :
  is_maintenance (a ++ b) = (is_maintenance a || is_maintenance b)%bool.
Proof. unfold is_maintenance. apply existsb_app. Qed.

Lemma is_maintenance_In (tags tags' : list TagDescription) :
  (forall t, In t tags -> In t tags') ->
  is_maintenance tags = true -> is_maintenance tags' = true.
Proof.
  intros Hsub H. apply is_maintenance_spec in H.
  destruct H as (t & Hin & Ht). apply is_maintenance_spec. eauto.
Qed.

(** X2. The check looks at nothing but the tags keyed ["Maintenance"]:
    it is the disjunction of the checks of the parts of a list, it does
    not depend on the order of the tags, and dropping every tag of
    another key leaves it unchanged. *)
Theorem is_maintenance_ignores_order_and_other_keys :
  (forall a b : list TagDescription,
      is_maintenance (a ++ b) = (is_maintenance a || is_maintenance b)%bool)
  /\ (forall tags tags' : list TagDescription,
         Permutation tags tags' -> is_maintenance tags = is_maintenance tags')
  /\ (forall tags : list TagDescription,
         is_maintenance (filter (fun t => String.eqb (Key t) "Maintenance") tags)
         = is_maintenance tags).
Proof.
  split; [exact is_maintenance_app|]. split.
  - intros tags tags' Hp.
    destruct (is_maintenance tags) eqn:E1, (is_maintenance tags') eqn:E2;
      try reflexivity.
    + rewrite (is_maintenance_In tags tags') in E2;
        [discriminate E2 | | exact E1].
      intros t. apply Permutation_in, Hp.
    + rewrite (is_maintenance_In tags' tags) in E1;
        [discriminate E1 | | exact E2].
      intros t. apply Permutation_in, Permutation_sym, Hp.
  - unfold is_maintenance.
    induction tags as [|t tags IH]; [reflexivity|]. simpl.
    destruct (String.eqb (Key t) "Maintenance") eqn:Hk; simpl.
    + rewrite Hk, IH. reflexivity.
    + exact IH.
Qed.

(** ** The timestamp *)

Lemma replace_Z_app (a b : string) :
  replace_Z (a ++ b) = replace_Z a ++ replace_Z b.
Proof.
  induction a as [|c a IH]; simpl; [reflexivity|].
  destruct (Ascii.eqb c "Z"); rewrite IH; reflexivity.
Qed.

(** X3. The [replace] of line 23 leaves a string without a capital [Z]
    as it is, turns a trailing [Z] into the suffix [+00:00], works
    through a string piece by piece, and leaves no [Z] behind (so it
    changes nothing when applied again). *)
Theorem replace_Z_normalises_zulu :
  (forall s, ~ In "Z"%char (list_ascii_of_string s) -> replace_Z s = s)
  /\ (forall s, replace_Z (s ++ "Z") = replace_Z s ++ "+00:00")
  /\ (forall a b, replace_Z (a ++ b) = replace_Z a ++ replace_Z b)
  /\ (forall s, ~ In "Z"%char (list_ascii_of_string (replace_Z s)))
  /\ (forall s, replace_Z (replace_Z s) = replace_Z s).
Proof.
  assert (Hid : forall s, ~ In "Z"%char (list_ascii_of_string s) ->
                          replace_Z s = s).
  { induction s as [|c s IH]; simpl; intros Hn; [reflexivity|].
    destruct (Ascii.eqb c "Z") eqn:E.
    - apply Ascii.eqb_eq in E. destruct Hn. auto.
    - f_equal. apply IH. intros Hin. apply Hn. auto. }
  assert (Hno : forall s, ~ In "Z"%char (list_ascii_of_string (replace_Z s))).
  { induction s as [|c s IH]; simpl; [intros []|].
    destruct (Ascii.eqb c "Z") eqn:E; simpl.
    - intros [H | [H | [H | [H | [H | [H | H]]]]]];
        try discriminate H. exact (IH H).
    - apply Ascii.eqb_neq in E. intros [H | H]; [congruence | exact (IH H)]. }
  repeat split.
  - exact Hid.
  - intros s. rewrite replace_Z_app. reflexivity.
  - exact replace_Z_app.
  - exact Hno.
  - intros s. apply Hid, Hno.
Qed.

Lemma int_total_seconds_odd (delta : Z) :
  int_of_float (total_seconds (- delta)) = - int_of_float (total_seconds delta)
  /\ (0 <= delta -> 0 <= int_of_float (total_seconds delta)).
Proof.
  unfold total_seconds, true_divide.
  destruct (Z.eq_dec delta 0) as [-> | Hnz]; [split; [reflexivity | discriminate]|].
  replace (- delta =? 0) with false by (symmetry; apply Z.eqb_neq; lia).
  replace (delta =? 0) with false by (symmetry; apply Z.eqb_neq; lia).
  rewrite Z.abs_opp, Z.sgn_opp.
  set (s := 52 - ilog2_ratio (Z.abs delta) 1000000).
  set (m := round_half_even (shl (Z.abs delta) s) (shl 1000000 (- s))).
  unfold int_of_float.
  assert (Hm : 0 <= m).
  { unfold m, shl.
    assert (0 < 2 ^ Z.max (- s) 0) by (apply Z.pow_pos_nonneg; lia).
    assert (0 <= 2 ^ Z.max s 0) by (apply Z.pow_nonneg; lia).
    pose proof (@round_half_even_near (Z.abs delta * 2 ^ Z.max s 0)
                  (1000000 * 2 ^ Z.max (- s) 0) ltac:(lia)) as B.
    assert (0 <= Z.abs delta * 2 ^ Z.max s 0) by (apply Z.mul_nonneg_nonneg; lia).
    nia. }
  destruct (0 <=? - s) eqn:E.
  - split; [ring|]. intros Hpos. rewrite Z.sgn_pos by lia.
    apply Z.mul_nonneg_nonneg; [lia|]. apply Z.pow_nonneg. lia.
  - apply Z.leb_gt in E.
    assert (0 < 2 ^ (- - s)) by (apply Z.pow_pos_nonneg; lia).
    split.
    + rewrite Z.mul_opp_l. apply Z.quot_opp_l. lia.
    + intros Hpos. rewrite Z.sgn_pos by lia. rewrite Z.mul_1_l.
      apply Z.quot_pos; lia.
Qed.

(** X4. [int(total_seconds())] is an odd function of the duration and is
    never negative on a duration that is not: a clock behind the event by
    some amount reports minus what a clock ahead by that amount reports. *)
Theorem downtime_is_odd_in_elapsed :
  forall delta : Z,
    int_of_float (total_seconds (- delta)) = - int_of_float (total_seconds delta)
    /\ (0 <= delta -> 0 <= int_of_float (total_seconds delta)).
Proof.
  intros delta. destruct (int_total_seconds_odd delta) as [Hodd Hsign].
  split.
  - exact Hodd.
  - exact Hsign.
Qed.

(** The exponent that [true_divide] picks is not above the quotient. *)
Lemma ilog2_ratio_below (a : Z) :
  0 < a -> 0 <= ilog2_ratio a 1000000 ->
  1000000 * 2 ^ ilog2_ratio a 1000000 <= a.
Proof.
  intros Ha. unfold ilog2_ratio. change (Z.log2 1000000) with 19.
  pose proof (Z.log2_spec a Ha) as [Hlo _].
  set (k := Z.log2 a - 19) in *.
  destruct (shl 1000000 k <=? shl a (- k)) eqn:C.
  - intros Hk. apply Z.leb_le in C. unfold shl in C.
    rewrite (Z.max_l k 0) in C by lia. rewrite (Z.max_r (- k) 0) in C by lia.
    change (2 ^ 0) with 1 in C. lia.
  - intros Hk.
    replace (Z.log2 a) with ((k - 1) + 20) in Hlo by (unfold k; lia).
    rewrite Z.pow_add_r in Hlo by lia.
    change (2 ^ 20) with 1048576 in Hlo.
    assert (0 < 2 ^ (k - 1)) by (apply Z.pow_pos_nonneg; lia).
    nia.
Qed.

Lemma ilog2_ratio_lt (a K : Z) :
  0 <= K -> 0 < a < 2 ^ K * 1000000 -> ilog2_ratio a 1000000 < K.
Proof.
  intros HK [Ha Hlt].
  destruct (Z_lt_le_dec (ilog2_ratio a 1000000) K) as [|Hge]; [assumption|].
  pose proof (@ilog2_ratio_below a Ha ltac:(lia)) as Hlow.
  pose proof (Z.pow_le_mono_r 2 K (ilog2_ratio a 1000000) ltac:(lia) Hge).
  nia.
Qed.

(** On a duration that is not negative and is shorter than [2^52]
    seconds, [int(total_seconds())] is the whole seconds or one more. *)
Lemma int_total_seconds_near (delta : Z) :
  0 <= delta < 2 ^ 52 * 1000000 ->
  trunc_seconds delta <= int_of_float (total_seconds delta)
  <= trunc_seconds delta + 1.
Proof.
  intros [H0 Hb]. unfold total_seconds, true_divide, trunc_seconds.
  destruct (delta =? 0) eqn:Z0.
  - apply Z.eqb_eq in Z0. subst delta.
    change (int_of_float (0, 0)) with 0. change (Z.quot 0 1000000) with 0. lia.
  - apply Z.eqb_neq in Z0.
    rewrite (Z.abs_eq delta) by lia. rewrite Z.sgn_pos by lia.
    rewrite Z.mul_1_l.
    pose proof (@ilog2_ratio_lt delta 52 ltac:(lia) ltac:(lia)) as HL.
    set (s := 52 - ilog2_ratio delta 1000000) in *.
    unfold int_of_float.
    replace (0 <=? - s) with false by (symmetry; apply Z.leb_gt; lia).
    rewrite Z.opp_involutive. unfold shl.
    rewrite (Z.max_l s 0) by lia. rewrite (Z.max_r (- s) 0) by lia.
    change (2 ^ 0) with 1. rewrite Z.mul_1_r.
    assert (HP : 0 < 2 ^ s) by (apply Z.pow_pos_nonneg; lia).
    set (P := 2 ^ s) in *.
    pose proof (@round_half_even_near (delta * P) 1000000 ltac:(lia)) as Bm.
    set (m := round_half_even (delta * P) 1000000) in *.
    pose proof (Z.div_mod delta 1000000 ltac:(lia)) as Ea.
    pose proof (Z.mod_pos_bound delta 1000000 ltac:(lia)) as Ba.
    rewrite (Z.quot_div_nonneg delta) by lia.
    set (qa := delta / 1000000) in *. set (ra := delta mod 1000000) in *.
    assert (Ea' : delta * P = 1000000 * (qa * P) + ra * P)
      by (rewrite Ea at 1; ring).
    assert (Hlow : qa * P <= m) by nia.
    assert (Hup : m < (qa + 2) * P) by nia.
    assert (0 <= m) by nia.
    rewrite Z.quot_div_nonneg by lia.
    split.
    + apply Z.div_le_lower_bound; lia.
    + assert (m / P < qa + 2) by (apply Z.div_lt_upper_bound; lia). lia.
Qed.

(** X5. Whatever two datetimes are subtracted (any duration shorter
    than [2^52] seconds), the reported downtime is the elapsed seconds
    rounded toward zero or that number one further from zero: the
    binary64 division of [total_seconds] costs at most one second and
    never brings the result nearer to zero. *)
Theorem downtime_within_one_second (delta : Z) :
  Z.abs delta < 2 ^ 52 * 1000000 ->
  Z.abs (trunc_seconds delta) <= Z.abs (int_of_float (total_seconds delta))
  <= Z.abs (trunc_seconds delta) + 1.
Proof.
  intros Hb.
  destruct (Z_le_gt_dec 0 delta) as [Hpos | Hneg].
  - pose proof (@int_total_seconds_near delta ltac:(lia)) as Hn.
    assert (0 <= trunc_seconds delta).
    { unfold trunc_seconds. apply Z.quot_pos; lia. }
    lia.
  - pose proof (@int_total_seconds_near (- delta) ltac:(lia)) as Hn.
    destruct (int_total_seconds_odd delta) as [Hodd _]. rewrite Hodd in Hn.
    assert (Ht : trunc_seconds (- delta) = - trunc_seconds delta).
    { unfold trunc_seconds. apply Z.quot_opp_l. lia. }
    rewrite Ht in Hn.
    assert (trunc_seconds delta <= 0).
    { unfold trunc_seconds.
      pose proof (Z.quot_pos (- delta) 1000000 ltac:(lia) ltac:(lia)) as Hq.
      rewrite Z.quot_opp_l in Hq by lia. lia. }
    lia.
Qed.

(** ** Extraction, shape by shape *)

(** Walks a chain of [.get] calls and the path predicates beside it, one
    dict, list or key at a time. *)
Ltac walk :=
  repeat match goal with
    | |- context [lookup ?k ?d] => destruct (lookup k d); simpl
    | |- context [match ?v with PDict _ => _ | _ => _ end] =>
        is_var v; destruct v; simpl
    | |- context [match ?l with nil => _ | cons _ _ => _ end] =>
        is_var l; destruct l; simpl
    | |- context [match ?s with EmptyString => _ | String _ _ => _ end] =>
        is_var s; destruct s; simpl
    end.

(** Closes a leaf [code = Ok v <-> found \/ (missing /\ v = default)]. *)
Ltac leaf :=
  split;
  [ intros H; first [discriminate H | injection H as <-; auto]
  | intros [H | [H ->]];
    first [discriminate H | injection H as <-; reflexivity | reflexivity] ].

(** X6. Lines 18-19 return a reason exactly when the field
    [detail.state.reason] is there, whose value they return as it is, or
    when a key on the way is absent, where they return ["N/A"]; on any
    other event they raise [AttributeError]. *)
Theorem state_reason_is_field_or_default (event : pyval) :
  (forall v,
      event_state_reason event = Ok v <->
      field_at reason_path event = Some v
      \/ (field_missing reason_path event = true /\ v = PStr "N/A"))
  /\ (forall e, event_state_reason event = Raise e -> e = AttributeError).
Proof.
  split.
  - intros v. unfold event_state_reason, get_state_reason, reason_path,
      py_get, rbind. simpl. walk; leaf.
  - intros e. unfold event_state_reason.
    destruct (py_get event "detail" (PDict [])) as [detail|e'] eqn:E; simpl.
    + apply get_state_reason_raises.
    + intros [= <-]. eapply py_get_raises, E.
Qed.

(** X7. Lines 18 and 27-28 return an instance id exactly when the field
    [detail.configuration.metrics[0].metricStat.metric.dimensions.InstanceId]
    is there, whose value they return as it is (only the first metric is
    read), or when a key on the way is absent, where they return
    ["Unknown"]. *)
Theorem instance_id_is_field_or_default (event v : pyval) :
  event_instance_id event = Ok v <->
  field_at instance_id_path event = Some v
  \/ (field_missing instance_id_path event = true /\ v = PStr "Unknown").
Proof.
  unfold event_instance_id, get_instance_id, instance_id_path, metrics_path,
    py_get, py_index0, rbind. simpl. walk; leaf.
Qed.

(** X8. When [detail.configuration.metrics] is there but is no list of
    objects, line 28 raises by the shape it finds: [IndexError] on an
    empty list or an empty string, [KeyError] on an object, [TypeError]
    on null, a boolean or a number, and [AttributeError] on a non-empty
    string. *)
Theorem malformed_metrics_raise_by_shape (event m : pyval) :
  field_at metrics_path event = Some m ->
  (event_instance_id event = Raise IndexError <-> m = PList [] \/ m = PStr "")
  /\ (event_instance_id event = Raise KeyError <-> exists d, m = PDict d)
  /\ (event_instance_id event = Raise TypeError <->
      m = PNone \/ (exists b, m = PBool b) \/ (exists n, m = PInt n)
      \/ (exists a b, m = PFloat a b))
  /\ ((exists c s, m = PStr (String c s)) ->
      event_instance_id event = Raise AttributeError).
Proof.
  intros H. apply field_at_detail in H. destruct H as (detail & Hd & Hm).
  unfold event_instance_id. rewrite Hd. simpl. clear Hd.
  unfold metrics_path in Hm. simpl in Hm.
  destruct detail as [| | | | | |fields]; try discriminate Hm.
  unfold get_instance_id, py_get, rbind.
  destruct (lookup "configuration" fields) as [[| | | | | |configuration]|];
    try discriminate Hm.
  destruct (lookup "metrics" configuration) as [m'|];
    [injection Hm as -> | discriminate Hm].
  unfold py_index0.
  destruct m as [| b | n | a b | [|c s] | [|x l] | d].
  all: repeat match goal with
         | |- _ /\ _ => split
         | |- _ <-> _ => split
         | |- _ -> _ => intros ?
         | H : _ \/ _ |- _ => destruct H
         | H : exists _, _ |- _ => destruct H
         end;
       try discriminate; try reflexivity; eauto 6.
  all: exfalso; revert H; walk; discriminate.
Qed.

(** ** The handler, run by run *)

Section Coverage.

Variables DISCORD_WEBHOOK SSM_DOCUMENT : option string.
Variable describe_tags : pyval -> result (list TagDescription).
Variable send_command : pyval -> pyval -> result unit.
Variable http_post : string -> string -> result unit.
Variables utc_clock local_offset : Z.
Variable utcnow_isoformat : string.
Variable fromisoformat : string -> option datetime.
Variable json_dumps : pyval -> string.
Variable str_compound : pyval -> string.

Local Abbreviation handler :=
  (lambda_handler DISCORD_WEBHOOK SSM_DOCUMENT describe_tags send_command
     http_post utc_clock local_offset utcnow_isoformat fromisoformat
     json_dumps str_compound).
Local Abbreviation notify :=
  (send_discord DISCORD_WEBHOOK http_post utcnow_isoformat json_dumps
     str_compound).
Local Abbreviation extract := (extract_context utc_clock local_offset fromisoformat).
Local Abbreviation downtime :=
  (get_downtime_duration utc_clock local_offset fromisoformat).
Local Abbreviation document := (env_value SSM_DOCUMENT).
Local Abbreviation skipped_message ctx :=
  (SendDiscord (instance_id ctx) maintenance_title
     (skip_description str_compound (state_reason ctx)) 16776960).
Local Abbreviation success_message ctx :=
  (SendDiscord (instance_id ctx) remediation_title
     (success_description SSM_DOCUMENT str_compound (state_reason ctx)
        (downtime_duration ctx)) 15158332).
Local Abbreviation skip_notice ctx :=
  (notify (instance_id ctx) maintenance_title
     (skip_description str_compound (state_reason ctx)) 16776960).
Local Abbreviation success_notice ctx :=
  (notify (instance_id ctx) remediation_title
     (success_description SSM_DOCUMENT str_compound (state_reason ctx)
        (downtime_duration ctx)) 15158332).
Local Abbreviation post_body iid title description color :=
  (json_dumps (payload utcnow_isoformat str_compound iid title description color)).

(** [send_discord], whole: without a webhook the attempt alone; with one,
    the attempt, the POST, and the POST's own outcome. *)
Lemma send_discord_cases (iid : pyval) (title description : string) (color : Z) :
  (truthy DISCORD_WEBHOOK = false
   /\ notify iid title description color
      = ([SendDiscord iid title description color], Ok tt))
  \/ (exists url,
         DISCORD_WEBHOOK = Some url /\ url <> ""
         /\ notify iid title description color
            = ([SendDiscord iid title description color;
                HttpPost url (post_body iid title description color)],
               http_post url (post_body iid title description color))).
Proof.
  unfold send_discord.
  destruct DISCORD_WEBHOOK as [[|c url]|]; simpl.
  - left. auto.
  - right. exists (String c url). split; [reflexivity|]. split; [discriminate|].
    destruct (http_post _ _) as [[]|e]; reflexivity.
  - left. auto.
Qed.

Local Abbreviation on_skip :=
  (@handler_skips DISCORD_WEBHOOK SSM_DOCUMENT describe_tags send_command
     http_post utc_clock local_offset utcnow_isoformat fromisoformat
     json_dumps str_compound).
Local Abbreviation on_remedy :=
  (@handler_remediates DISCORD_WEBHOOK SSM_DOCUMENT describe_tags send_command
     http_post utc_clock local_offset utcnow_isoformat fromisoformat
     json_dumps str_compound).
Local Abbreviation on_reach :=
  (@handler_reaches_command DISCORD_WEBHOOK SSM_DOCUMENT describe_tags
     send_command http_post utc_clock local_offset utcnow_isoformat
     fromisoformat json_dumps str_compound).
Local Abbreviation on_return :=
  (@handler_returns_inv DISCORD_WEBHOOK SSM_DOCUMENT describe_tags send_command
     http_post utc_clock local_offset utcnow_isoformat fromisoformat
     json_dumps str_compound).

(** The five ways a run can go. *)
Lemma handler_cases (event context : pyval) :
  (exists e, extract event = Raise e /\ handler event context = ([], Raise e))
  \/ exists ctx,
      extract event = Ok ctx
      /\ ((exists e,
              describe_tags (instance_id ctx) = Raise e
              /\ handler event context
                 = ([DescribeTags (instance_id ctx)], Raise e))
          \/ exists tags,
              describe_tags (instance_id ctx) = Ok tags
              /\ ((is_maintenance tags = true
                   /\ handler event context
                      = (DescribeTags (instance_id ctx) :: trace (skip_notice ctx),
                         match outcome (skip_notice ctx) with
                         | Ok _ => Ok (status "skipped")
                         | Raise e => Raise e
                         end))
                  \/ (is_maintenance tags = false
                      /\ ((exists e,
                              send_command (instance_id ctx) document = Raise e
                              /\ handler event context
                                 = ([DescribeTags (instance_id ctx);
                                     SendCommand (instance_id ctx) document],
                                    Raise e))
                          \/ (send_command (instance_id ctx) document = Ok tt
                              /\ handler event context
                                 = (DescribeTags (instance_id ctx)
                                      :: SendCommand (instance_id ctx) document
                                      :: trace (success_notice ctx),
                                    match outcome (success_notice ctx) with
                                    | Ok _ => Ok (status "success")
                                    | Raise e => Raise e
                                    end)))))).
Proof.
  destruct (extract event) as [ctx|e] eqn:H1.
  2: { left. exists e. split; [reflexivity|].
       apply handler_extract_raises, H1. }
  right. exists ctx. split; [reflexivity|].
  destruct (describe_tags (instance_id ctx)) as [tags|e] eqn:H2.
  2: { left. exists e. split; [reflexivity|].
       apply (handler_tags_raise _ _ _ _ _ _ _ _ _ _ _ event context H1 H2). }
  right. exists tags. split; [reflexivity|].
  destruct (is_maintenance tags) eqn:H3.
  - left. split; [reflexivity|].
    apply (handler_skips _ _ _ _ _ _ _ _ _ _ _ event context H1 H2 H3).
  - right. split; [reflexivity|].
    destruct (send_command (instance_id ctx) document) as [[]|e] eqn:H4.
    + right. split; [reflexivity|].
      apply (handler_remediates _ _ _ _ _ _ _ _ _ _ _ event context H1 H2 H3 H4).
    + left. exists e. split; [reflexivity|].
      apply (handler_command_raises _ _ _ _ _ _ _ _ _ _ _ event context H1 H2 H3 H4).
Qed.

(** X9. An event whose [detail], or whose [detail.state], is there but
    is not an object (null, a string, a number, a list) makes the handler
    raise [AttributeError] before any call: the defaults of lines 18-19
    stand in for absent keys only. *)
Theorem non_object_detail_raises (event context v : pyval) :
  field_at [Field "detail"] event = Some v
  \/ field_at [Field "detail"; Field "state"] event = Some v ->
  (forall d, v <> PDict d) ->
  outcome (handler event context) = Raise AttributeError
  /\ trace (handler event context) = [].
Proof.
  intros Hv Hnd.
  assert (He : extract event = Raise AttributeError).
  { unfold extract_context, get_state_reason, py_get, rbind.
    destruct Hv as [Hv | Hv]; simpl in Hv;
      destruct event as [| | | | | |fields]; try discriminate Hv;
      destruct (lookup "detail" fields) as [detail|]; try discriminate Hv.
    - injection Hv as ->.
      destruct v; try reflexivity. destruct (Hnd d eq_refl).
    - destruct detail as [| | | | | |inner]; try discriminate Hv.
      destruct (lookup "state" inner) as [state|]; try discriminate Hv.
      injection Hv as ->.
      destruct v; try reflexivity. destruct (Hnd d eq_refl). }
  rewrite (handler_extract_raises _ _ _ _ _ _ _ _ _ _ _ event context He).
  split; reflexivity.
Qed.

(** X10. Lines 22-24 end in one of three ways. A [time] that is a string
    the parser rejects raises [ValueError]; a [time] that is absent or is
    no string raises [AttributeError]; nothing else is ever raised, the
    subtraction of line 24 never mixing a naive and an aware datetime;
    and a result is always the seconds elapsed since a parsed [time]. *)
Theorem downtime_by_time_field (event : pyval) :
  (forall s,
      field_at [Field "time"] event = Some (PStr s) ->
      fromisoformat (replace_Z s) = None ->
      downtime event = Raise ValueError)
  /\ ((forall s, field_at [Field "time"] event <> Some (PStr s)) ->
      downtime event = Raise AttributeError)
  /\ (forall e, downtime event = Raise e -> e = AttributeError \/ e = ValueError)
  /\ (forall d,
         downtime event = Ok d ->
         exists t,
           event_time fromisoformat event = Some t
           /\ d = int_of_float (total_seconds (elapsed utc_clock local_offset t))).
Proof.
  unfold get_downtime_duration, event_time, py_get, py_replace_Z, parse_time,
    datetime_sub, datetime_now, elapsed, rbind.
  simpl.
  destruct event as [| | | | | |fields];
    try (repeat split; intros; try congruence; left; congruence).
  destruct (lookup "time" fields) as [[| | | | s | |]|];
    try (repeat split; intros; try congruence; left; congruence).
  repeat split.
  - intros s' [= <-] ->. reflexivity.
  - intros Hn. destruct (Hn s eq_refl).
  - intros e. destruct (fromisoformat (replace_Z s)) as [t|].
    + destruct (tzinfo t); discriminate.
    + intros [= <-]. auto.
  - intros d Hd.
    destruct (fromisoformat (replace_Z s)) as [t|]; [|discriminate Hd].
    exists t. split; [reflexivity|].
    destruct (tzinfo t) as [off|]; simpl in Hd; injection Hd as <-;
      do 2 f_equal; lia.
Qed.

(** X11. With lines 18-19 through, a [time] the parser rejects ends the
    handler in [ValueError] before any call. *)
Theorem unparseable_time_raises_value_error (event context r : pyval)
    (s : string) :
  event_state_reason event = Ok r ->
  field_at [Field "time"] event = Some (PStr s) ->
  fromisoformat (replace_Z s) = None ->
  outcome (handler event context) = Raise ValueError
  /\ trace (handler event context) = [].
Proof.
  intros Hr Hs Hp.
  destruct (downtime_by_time_field event) as (Hv & _).
  specialize (Hv s Hs Hp).
  assert (He : extract event = Raise ValueError).
  { unfold extract_context. unfold event_state_reason in Hr.
    destruct (py_get event "detail" (PDict [])) as [detail|e]; simpl in *;
      [|discriminate Hr].
    rewrite Hr. simpl. rewrite Hv. reflexivity. }
  rewrite (handler_extract_raises _ _ _ _ _ _ _ _ _ _ _ event context He).
  split; reflexivity.
Qed.

(** X12. A timestamp with a UTC offset is measured as an instant: the
    downtime does not depend on the zone the handler runs in, and two
    events stamped with the same instant under different offsets get the
    same downtime. A timestamp without an offset is read on the
    handler's local clock. *)
Theorem downtime_compares_instants :
  (forall event t off local',
      event_time fromisoformat event = Some t ->
      tzinfo t = Some off ->
      get_downtime_duration utc_clock local' fromisoformat event
      = downtime event)
  /\ (forall event1 event2 t1 t2 off1 off2,
         event_time fromisoformat event1 = Some t1 ->
         event_time fromisoformat event2 = Some t2 ->
         tzinfo t1 = Some off1 ->
         tzinfo t2 = Some off2 ->
         wall_us t1 - off1 = wall_us t2 - off2 ->
         downtime event1 = downtime event2)
  /\ (forall event t,
         event_time fromisoformat event = Some t ->
         tzinfo t = None ->
         downtime event
         = Ok (int_of_float
                 (total_seconds (utc_clock + local_offset - wall_us t)))).
Proof.
  repeat split.
  - intros event t off local' Ht Hz.
    rewrite !(downtime_of_event_time _ _ _ event Ht).
    unfold elapsed. rewrite Hz. reflexivity.
  - intros event1 event2 t1 t2 off1 off2 H1 H2 Hz1 Hz2 Heq.
    rewrite (downtime_of_event_time _ _ _ event1 H1).
    rewrite (downtime_of_event_time _ _ _ event2 H2).
    unfold elapsed. rewrite Hz1, Hz2, Heq. reflexivity.
  - intros event t Ht Hz.
    rewrite (downtime_of_event_time _ _ _ event Ht).
    unfold elapsed. rewrite Hz. reflexivity.
Qed.

(** X13. When the tag lookup fails, that exception ends the handler: the
    lookup is its only call, no command is dispatched and no
    notification is attempted. *)
Theorem failed_tag_lookup_stops_the_run (event context : pyval)
    (ctx : alarm_context) (e : exn) :
  extract event = Ok ctx ->
  describe_tags (instance_id ctx) = Raise e ->
  outcome (handler event context) = Raise e
  /\ trace (handler event context) = [DescribeTags (instance_id ctx)].
Proof.
  intros H1 H2.
  rewrite (handler_tags_raise _ _ _ _ _ _ _ _ _ _ _ event context H1 H2).
  split; reflexivity.
Qed.

(** X14. Every run, however it ends, makes its calls in one fixed order:
    nothing at all when the extraction raises; otherwise the tag lookup
    for the extracted instance id, then either the skip notification or
    the command followed by the success notification, a notification
    being followed by at most one POST, to the configured webhook. So no
    run looks up tags, dispatches, notifies or posts twice. *)
Theorem handler_trace_shape (event context : pyval) :
  ((exists e, extract event = Raise e) /\ trace (handler event context) = []
   \/ exists ctx posts,
       extract event = Ok ctx
       /\ (posts = []
           \/ exists url body,
               DISCORD_WEBHOOK = Some url /\ posts = [HttpPost url body])
       /\ (trace (handler event context) = [DescribeTags (instance_id ctx)]
           \/ trace (handler event context)
              = DescribeTags (instance_id ctx) :: skipped_message ctx :: posts
           \/ trace (handler event context)
              = [DescribeTags (instance_id ctx);
                 SendCommand (instance_id ctx) document]
           \/ trace (handler event context)
              = DescribeTags (instance_id ctx)
                  :: SendCommand (instance_id ctx) document
                  :: success_message ctx :: posts))
  /\ (List.length (filter is_send_command (trace (handler event context))) <= 1
      /\ List.length (filter is_send_discord (trace (handler event context))) <= 1
      /\ List.length (filter is_network_call (trace (handler event context))) <= 3
      /\ List.length (trace (handler event context)) <= 4)%nat.
Proof.
  destruct (handler_cases event context)
    as [(e & He & ->)
       | (ctx & Hc & [(e & _ & ->)
                     | (tags & _ & [(_ & ->)
                                   | (_ & [(e & _ & ->) | (_ & ->)])])])].
  - split; [left; eauto | simpl; lia].
  - split; [right; exists ctx, []; auto | simpl; lia].
  - destruct (send_discord_cases (instance_id ctx) maintenance_title
                (skip_description str_compound (state_reason ctx)) 16776960)
      as [(_ & ->) | (url & Hu & _ & ->)]; simpl.
    + split; [right; exists ctx, []; auto | lia].
    + split; [right; exists ctx; eexists; split; [exact Hc|]; split;
              [right; eauto | auto] | lia].
  - split; [right; exists ctx, []; auto 6 | simpl; lia].
  - destruct (send_discord_cases (instance_id ctx) remediation_title
                (success_description SSM_DOCUMENT str_compound
                   (state_reason ctx) (downtime_duration ctx)) 15158332)
      as [(_ & ->) | (url & Hu & _ & ->)]; simpl.
    + split; [right; exists ctx, []; auto 7 | lia].
    + split; [right; exists ctx; eexists; split; [exact Hc|]; split;
              [right; eauto | auto 7] | lia].
Qed.

(** X15. A remediation command in the trace was dispatched to the
    instance id the tags were looked up for, with the configured document,
    after a lookup that answered and found no maintenance tag: the
    handler never dispatches for a resource it saw under maintenance, nor
    for one whose tags it could not read. *)
Theorem command_dispatched_only_without_maintenance
    (event context iid doc : pyval) :
  In (SendCommand iid doc) (trace (handler event context)) ->
  doc = document
  /\ exists ctx tags,
      extract event = Ok ctx
      /\ iid = instance_id ctx
      /\ describe_tags iid = Ok tags
      /\ (forall t, In t tags -> ~ maintenance_tag t)
      /\ exists rest,
          trace (handler event context)
          = DescribeTags iid :: SendCommand iid doc :: rest.
Proof.
  destruct (handler_cases event context)
    as [(e & He & ->)
       | (ctx & Hc & [(e & _ & ->)
                     | (tags & Ht & [(_ & ->)
                                    | (Hm & [(e & _ & ->) | (_ & ->)])])])];
    simpl.
  - intros [].
  - intros [H | []]. discriminate H.
  - destruct (send_discord_cases (instance_id ctx) maintenance_title
                (skip_description str_compound (state_reason ctx)) 16776960)
      as [(_ & ->) | (url & _ & _ & ->)]; simpl;
      intuition discriminate.
  - intros [H | [H | []]]; [discriminate H|]. injection H as <- <-.
    split; [reflexivity|]. exists ctx, tags.
    pose proof (proj1 (@is_maintenance_false tags) Hm) as Hn. eauto 8.
  - intros [H | [H | H]]; [discriminate H | |].
    + injection H as <- <-.
      split; [reflexivity|]. exists ctx, tags.
      pose proof (proj1 (@is_maintenance_false tags) Hm) as Hn. eauto 8.
    + exfalso. revert H.
      destruct (send_discord_cases (instance_id ctx) remediation_title
                  (success_description SSM_DOCUMENT str_compound
                     (state_reason ctx) (downtime_duration ctx)) 15158332)
        as [(_ & ->) | (url & _ & _ & ->)]; simpl;
        intuition discriminate.
Qed.

(** X16. The handler returns a status in exactly two ways:
    [{"status": "skipped"}] when the tags hold a maintenance tag and the
    skip notification returns, [{"status": "success"}] when they hold
    none and both the command dispatch and the success notification
    return. It returns nothing else. *)
Theorem handler_returns_iff (event context st : pyval) :
  outcome (handler event context) = Ok st <->
  exists ctx tags,
    extract event = Ok ctx
    /\ describe_tags (instance_id ctx) = Ok tags
    /\ ((is_maintenance tags = true
         /\ outcome (skip_notice ctx) = Ok tt
         /\ st = status "skipped")
        \/ (is_maintenance tags = false
            /\ send_command (instance_id ctx) document = Ok tt
            /\ outcome (success_notice ctx) = Ok tt
            /\ st = status "success")).
Proof.
  split.
  - destruct (handler_cases event context)
      as [(e & He & ->)
         | (ctx & Hc & [(e & _ & ->)
                       | (tags & Ht & [(Hm & ->)
                                      | (Hm & [(e & _ & ->) | (Hs & ->)])])])];
      simpl; try discriminate.
    + destruct (outcome (skip_notice ctx)) as [[]|e] eqn:Hn; [|discriminate].
      intros [= <-]. exists ctx, tags. auto 7.
    + destruct (outcome (success_notice ctx)) as [[]|e] eqn:Hn; [|discriminate].
      intros [= <-]. exists ctx, tags. auto 8.
  - intros (ctx & tags & Hc & Ht & [(Hm & Hn & ->) | (Hm & Hs & Hn & ->)]).
    + pose proof (on_skip event context Hc Ht Hm) as Hh.
      cbv zeta in Hh. rewrite Hh. simpl. rewrite Hn. reflexivity.
    + pose proof (on_remedy event context Hc Ht Hm Hs) as Hh.
      cbv zeta in Hh. rewrite Hh. simpl. rewrite Hn. reflexivity.
Qed.



(** X18. A webhook POST that fails after a dispatched command ends the
    handler in the POST's exception although the remediation command has
    already been sent: the invocation reports a failure for a remediation
    that took place. *)
Theorem webhook_failure_after_dispatch (event context : pyval)
    (ctx : alarm_context) (tags : list TagDescription) (url : string)
    (e : exn) :
  extract event = Ok ctx ->
  describe_tags (instance_id ctx) = Ok tags ->
  is_maintenance tags = false ->
  send_command (instance_id ctx) document = Ok tt ->
  DISCORD_WEBHOOK = Some url ->
  url <> "" ->
  (forall body, http_post url body = Raise e) ->
  outcome (handler event context) = Raise e
  /\ exists body,
      trace (handler event context)
      = [DescribeTags (instance_id ctx);
         SendCommand (instance_id ctx) document;
         success_message ctx;
         HttpPost url body].
Proof.
  intros Hc Ht Hm Hs Hu Hne Hp.
  pose proof (on_remedy event context Hc Ht Hm Hs) as Hh.
  cbv zeta in Hh. rewrite Hh. clear Hh. simpl.
  destruct (send_discord_cases (instance_id ctx) remediation_title
              (success_description SSM_DOCUMENT str_compound
                 (state_reason ctx) (downtime_duration ctx)) 15158332)
    as [(Hf & _) | (url' & Hu' & _ & ->)].
  - rewrite Hu in Hf. destruct url; [destruct Hne; reflexivity | discriminate Hf].
  - rewrite Hu in Hu'. injection Hu' as <-. simpl. rewrite Hp.
    split; [reflexivity|]. eexists. reflexivity.
Qed.

(** X19. The handler does not check that a remediation document is
    configured: with [SSM_DOCUMENT_NAME] unset it still dispatches, with
    [None] as the document name, and its success notification reads
    [Triggered `None` successfully]. *)
Theorem unset_document_is_dispatched_as_None (event context : pyval)
    (ctx : alarm_context) (tags : list TagDescription) :
  SSM_DOCUMENT = None ->
  extract event = Ok ctx ->
  describe_tags (instance_id ctx) = Ok tags ->
  is_maintenance tags = false ->
  (exists rest,
      trace (handler event context)
      = DescribeTags (instance_id ctx)
          :: SendCommand (instance_id ctx) PNone :: rest)
  /\ occurs_in "Triggered `None` successfully."
       (success_description SSM_DOCUMENT str_compound (state_reason ctx)
          (downtime_duration ctx))
  /\ (outcome (handler event context) = Ok (status "success") ->
      In (success_message ctx) (trace (handler event context))).
Proof.
  intros Hd Hc Ht Hm. split; [|split].
  - destruct (on_reach event context Hc Ht Hm) as (rest & Hr).
    rewrite Hr, Hd. eexists. reflexivity.
  - unfold success_description. rewrite Hd.
    exists ("**Cause of Downtime:** `"
            ++ format_value str_compound (state_reason ctx) ++ "`"
            ++ String "010" "**Time Since Detection:** `"
            ++ str_of_int (downtime_duration ctx) ++ " seconds`"
            ++ String "010" "**Remediation:** "), "".
    rewrite !append_assoc. simpl. rewrite ?append_assoc. reflexivity.
  - intros Hret.
    destruct (on_return event context Hret)
      as (ctx' & tags' & Hc' & _ & [(_ & Hs & _) | (_ & _ & posts & Hp & _)]).
    + discriminate Hs.
    + rewrite Hc in Hc'. injection Hc' as <-. rewrite Hp. simpl. auto.
Qed.

Lemma occurs_in_here (before needle after : string) :
  occurs_in needle (before ++ needle ++ after).
Proof. exists before, after. reflexivity. Qed.

Lemma occurs_in_later (before needle s : string) :
  occurs_in needle s -> occurs_in needle (before ++ s).
Proof.
  intros (b & a & ->). exists (before ++ b), a. symmetry. apply append_assoc.
Qed.

Lemma skip_description_has_reason (reason : pyval) :
  occurs_in (format_value str_compound reason)
    (skip_description str_compound reason).
Proof. unfold skip_description. apply occurs_in_here. Qed.

Lemma success_description_has_context (reason : pyval) (d : Z) :
  occurs_in (format_value str_compound reason)
    (success_description SSM_DOCUMENT str_compound reason d)
  /\ occurs_in (str_of_int d)
       (success_description SSM_DOCUMENT str_compound reason d)
  /\ occurs_in (format_value str_compound document)
       (success_description SSM_DOCUMENT str_compound reason d).
Proof.
  unfold success_description. repeat split.
  - apply occurs_in_here.
  - do 3 apply occurs_in_later. apply occurs_in_here.
  - do 6 apply occurs_in_later. apply occurs_in_here.
Qed.

(** X20. Whatever notification the handler attempts is about the
    extracted instance id and quotes the extracted reason. It is the skip
    notice, in which case nothing was dispatched, or the success notice,
    which also quotes the downtime and the document name and is only
    attempted after the command dispatch has returned. *)
Theorem notification_reports_context (event context iid : pyval)
    (title description : string) (color : Z) :
  In (SendDiscord iid title description color) (trace (handler event context)) ->
  exists ctx,
    extract event = Ok ctx
    /\ iid = instance_id ctx
    /\ occurs_in (format_value str_compound (state_reason ctx)) description
    /\ ((title = maintenance_title
         /\ color = 16776960
         /\ filter is_send_command (trace (handler event context)) = [])
        \/ (title = remediation_title
            /\ color = 15158332
            /\ occurs_in (str_of_int (downtime_duration ctx)) description
            /\ occurs_in (format_value str_compound document) description
            /\ send_command iid document = Ok tt)).
Proof.
  destruct (handler_cases event context)
    as [(e & He & ->)
       | (ctx & Hc & [(e & _ & ->)
                     | (tags & Ht & [(Hm & ->)
                                    | (Hm & [(e & _ & ->) | (Hs & ->)])])])];
    simpl.
  - intros [].
  - intros [H | []]. discriminate H.
  - destruct (send_discord_cases (instance_id ctx) maintenance_title
                (skip_description str_compound (state_reason ctx)) 16776960)
      as [(_ & ->) | (url & _ & _ & ->)]; simpl.
    + intros [H | [H | []]]; [discriminate H|]. injection H as <- <- <- <-.
      exists ctx. repeat split; try assumption.
      * apply skip_description_has_reason.
      * left. auto.
    + intros [H | [H | [H | []]]]; try discriminate H.
      injection H as <- <- <- <-.
      exists ctx. repeat split; try assumption.
      * apply skip_description_has_reason.
      * left. auto.
  - intros [H | [H | []]]; discriminate H.
  - destruct (success_description_has_context (state_reason ctx)
                (downtime_duration ctx)) as (Hr & Hd & Hdoc).
    destruct (send_discord_cases (instance_id ctx) remediation_title
                (success_description SSM_DOCUMENT str_compound
                   (state_reason ctx) (downtime_duration ctx)) 15158332)
      as [(_ & ->) | (url & _ & _ & ->)]; simpl.
    + intros [H | [H | [H | []]]]; try discriminate H.
      injection H as <- <- <- <-.
      exists ctx. repeat split; try assumption. right. auto 6.
    + intros [H | [H | [H | [H | []]]]]; try discriminate H.
      injection H as <- <- <- <-.
      exists ctx. repeat split; try assumption. right. auto 6.
Qed.

(** X21. With a webhook URL configured, [send_discord] makes exactly one
    network call, a POST to that URL, and ends as the POST ends: it
    returns when the POST returns and raises what the POST raises. *)
Theorem send_discord_posts_once (iid : pyval) (title description : string)
    (color : Z) (url : string) :
  DISCORD_WEBHOOK = Some url ->
  url <> "" ->
  exists body,
    trace (notify iid title description color)
    = [SendDiscord iid title description color; HttpPost url body]
    /\ outcome (notify iid title description color) = http_post url body.
Proof.
  intros Hu Hne.
  destruct (send_discord_cases iid title description color)
    as [(Hf & _) | (url' & Hu' & _ & ->)].
  - rewrite Hu in Hf.
    destruct url; [destruct Hne; reflexivity | discriminate Hf].
  - rewrite Hu in Hu'. injection Hu' as <-. eexists. split; reflexivity.
Qed.

End Coverage.

(** ** The further properties at the scenarios *)

Lemma downtime_within_one_second_witness :
  Z.abs (exact_range + 1999999) < 2 ^ 52 * 1000000
  /\ Z.abs (trunc_seconds (exact_range + 1999999))
     <= Z.abs (int_of_float (total_seconds (exact_range + 1999999)))
     <= Z.abs (trunc_seconds (exact_range + 1999999)) + 1.
Proof.
  split; [reflexivity|].
  apply (@downtime_within_one_second (exact_range + 1999999) eq_refl).
Defined.

Lemma malformed_metrics_raise_by_shape_witness :
  field_at metrics_path keyed_metrics_alarm
  = Some (PDict [("0", dimensions [])])
  /\ event_instance_id keyed_metrics_alarm = Raise KeyError.
Proof.
  split; [reflexivity|].
  destruct (@malformed_metrics_raise_by_shape keyed_metrics_alarm
              (PDict [("0", dimensions [])]) eq_refl) as (_ & Hkey & _).
  apply Hkey. eexists. reflexivity.
Defined.

Lemma non_object_detail_raises_witness :
  field_at [Field "detail"] null_detail_alarm = Some PNone
  /\ outcome (run webhook [] (Ok tt) 90500000 null_detail_alarm)
     = Raise AttributeError
  /\ trace (run webhook [] (Ok tt) 90500000 null_detail_alarm) = [].
Proof.
  split; [reflexivity|].
  apply (@non_object_detail_raises
           webhook (Some "RestartService") (fun _ => Ok []) (fun _ _ => Ok tt)
           (fun _ _ => Ok tt) (new_year_2024 + 90500000) 0
           "2024-01-01T00:01:30.500000" fromisoformat json_dumps str_compound
           null_detail_alarm PNone PNone (or_introl eq_refl)).
  intros d H. discriminate H.
Defined.

Lemma unparseable_time_raises_value_error_witness :
  fromisoformat (replace_Z "yesterday") = None
  /\ outcome (run webhook [] (Ok tt) 90500000 garbled_alarm) = Raise ValueError
  /\ trace (run webhook [] (Ok tt) 90500000 garbled_alarm) = [].
Proof.
  split; [reflexivity|].
  apply (@unparseable_time_raises_value_error
           webhook (Some "RestartService") (fun _ => Ok []) (fun _ _ => Ok tt)
           (fun _ _ => Ok tt) (new_year_2024 + 90500000) 0
           "2024-01-01T00:01:30.500000" fromisoformat json_dumps str_compound
           garbled_alarm PNone (PStr "Instance reachability check failed")
           "yesterday" eq_refl eq_refl eq_refl).
Defined.

Lemma failed_tag_lookup_stops_the_run_witness :
  outcome (run_with webhook (Some "RestartService")
             (Raise (Fault "UnauthorizedOperation")) (Ok tt) (Ok tt))
  = Raise (Fault "UnauthorizedOperation")
  /\ trace (run_with webhook (Some "RestartService")
              (Raise (Fault "UnauthorizedOperation")) (Ok tt) (Ok tt))
     = [DescribeTags (PStr "i-abc123")].
Proof.
  apply (@failed_tag_lookup_stops_the_run
           webhook (Some "RestartService")
           (fun _ => Raise (Fault "UnauthorizedOperation")) (fun _ _ => Ok tt)
           (fun _ _ => Ok tt) (new_year_2024 + 90500000) 0
           "2024-01-01T00:01:30.500000" fromisoformat json_dumps str_compound
           alarm PNone alarm_ctx (Fault "UnauthorizedOperation")
           eq_refl eq_refl).
Defined.

Lemma command_dispatched_only_without_maintenance_witness :
  In (SendCommand (PStr "i-abc123") (PStr "RestartService"))
    (trace (run_with webhook (Some "RestartService")
              (Ok [tag "Owner" "ops"]) (Ok tt) (Ok tt)))
  /\ exists ctx tags,
      extract_context (new_year_2024 + 90500000) 0 fromisoformat alarm = Ok ctx
      /\ PStr "i-abc123" = instance_id ctx
      /\ Ok [tag "Owner" "ops"] = Ok tags
      /\ (forall t, In t tags -> ~ maintenance_tag t)
      /\ exists rest,
          trace (run_with webhook (Some "RestartService")
                   (Ok [tag "Owner" "ops"]) (Ok tt) (Ok tt))
          = DescribeTags (PStr "i-abc123")
              :: SendCommand (PStr "i-abc123") (PStr "RestartService") :: rest.
Proof.
  assert (Hin : In (SendCommand (PStr "i-abc123") (PStr "RestartService"))
                  (trace (run_with webhook (Some "RestartService")
                            (Ok [tag "Owner" "ops"]) (Ok tt) (Ok tt)))).
  { simpl. auto. }
  split; [exact Hin|].
  apply (@command_dispatched_only_without_maintenance
           webhook (Some "RestartService") (fun _ => Ok [tag "Owner" "ops"])
           (fun _ _ => Ok tt) (fun _ _ => Ok tt) (new_year_2024 + 90500000) 0
           "2024-01-01T00:01:30.500000" fromisoformat json_dumps str_compound
           alarm PNone (PStr "i-abc123") (PStr "RestartService") Hin).
Defined.


Lemma webhook_failure_after_dispatch_witness :
  outcome (run_with webhook (Some "RestartService") (Ok []) (Ok tt)
             (Raise (Fault "MaxRetryError")))
  = Raise (Fault "MaxRetryError")
  /\ exists body,
      trace (run_with webhook (Some "RestartService") (Ok []) (Ok tt)
               (Raise (Fault "MaxRetryError")))
      = [DescribeTags (PStr "i-abc123");
         SendCommand (PStr "i-abc123") (PStr "RestartService");
         SendDiscord (PStr "i-abc123") remediation_title
           (alarm_success_description (Some "RestartService")) 15158332;
         HttpPost "https://discord.example/api/webhooks/1" body].
Proof.
  apply (@webhook_failure_after_dispatch
           webhook (Some "RestartService") (fun _ => Ok [])
           (fun _ _ => Ok tt) (fun _ _ => Raise (Fault "MaxRetryError"))
           (new_year_2024 + 90500000) 0 "2024-01-01T00:01:30.500000"
           fromisoformat json_dumps str_compound alarm PNone alarm_ctx []
           "https://discord.example/api/webhooks/1" (Fault "MaxRetryError")
           eq_refl eq_refl eq_refl eq_refl eq_refl).
  - discriminate.
  - reflexivity.
Defined.

Lemma unset_document_is_dispatched_as_None_witness :
  (exists rest,
      trace (run_with webhook None (Ok []) (Ok tt) (Ok tt))
      = DescribeTags (PStr "i-abc123")
          :: SendCommand (PStr "i-abc123") PNone :: rest)
  /\ occurs_in "Triggered `None` successfully." (alarm_success_description None).
Proof.
  destruct (@unset_document_is_dispatched_as_None
              webhook None (fun _ => Ok []) (fun _ _ => Ok tt)
              (fun _ _ => Ok tt) (new_year_2024 + 90500000) 0
              "2024-01-01T00:01:30.500000" fromisoformat json_dumps
              str_compound alarm PNone alarm_ctx [] eq_refl eq_refl eq_refl
              eq_refl) as (Hrest & Hocc & _).
  split; [exact Hrest | exact Hocc].
Defined.

Lemma notification_reports_context_witness :
  In (SendDiscord (PStr "i-abc123") maintenance_title
        (skip_description str_compound
           (PStr "Instance reachability check failed")) 16776960)
    (trace (run webhook [tag "Maintenance" "TRUE"] (Ok tt) 90500000 alarm))
  /\ exists ctx,
      extract_context (new_year_2024 + 90500000) 0 fromisoformat alarm = Ok ctx
      /\ PStr "i-abc123" = instance_id ctx.
Proof.
  assert (Hin : In (SendDiscord (PStr "i-abc123") maintenance_title
                      (skip_description str_compound
                         (PStr "Instance reachability check failed")) 16776960)
                  (trace (run webhook [tag "Maintenance" "TRUE"] (Ok tt)
                            90500000 alarm))).
  { simpl. auto. }
  split; [exact Hin|].
  destruct (@notification_reports_context
              webhook (Some "RestartService")
              (fun _ => Ok [tag "Maintenance" "TRUE"]) (fun _ _ => Ok tt)
              (fun _ _ => Ok tt) (new_year_2024 + 90500000) 0
              "2024-01-01T00:01:30.500000" fromisoformat json_dumps
              str_compound alarm PNone (PStr "i-abc123") maintenance_title
              (skip_description str_compound
                 (PStr "Instance reachability check failed")) 16776960 Hin)
    as (ctx & Hc & Hi & _).
  exists ctx. split; [exact Hc | exact Hi].
Defined.

Lemma send_discord_posts_once_witness :
  exists body,
    trace (send_discord webhook (fun _ _ => Raise (Fault "MaxRetryError"))
             "2024-01-01T00:01:30.500000" json_dumps str_compound
             (PStr "i-abc123") remediation_title "description" 15158332)
    = [SendDiscord (PStr "i-abc123") remediation_title "description" 15158332;
       HttpPost "https://discord.example/api/webhooks/1" body]
    /\ outcome (send_discord webhook (fun _ _ => Raise (Fault "MaxRetryError"))
                  "2024-01-01T00:01:30.500000" json_dumps str_compound
                  (PStr "i-abc123") remediation_title "description" 15158332)
       = Raise (Fault "MaxRetryError").
Proof.
  apply (@send_discord_posts_once
           webhook (fun _ _ => Raise (Fault "MaxRetryError"))
           "2024-01-01T00:01:30.500000" json_dumps str_compound
           (PStr "i-abc123") remediation_title "description" 15158332
           "https://discord.example/api/webhooks/1" eq_refl).
  discriminate.
Defined.
